(** * Train booking service (app.py): a shallow embedding and its properties

    The service is a Flask application with three store-backed handlers
    ([add_booking], [get_bookings], [health_check]) and a start-up routine
    ([create_table]).  The handlers are embedded as state-passing functions
    over a [World] that holds the bookings table, the resources currently
    open and the driver calls made so far.  The answers of the MySQL driver
    are a parameter ([Driver]) of every handler.

    Scope of the value model: what [json.loads] yields, that is null,
    booleans, integers, binary64 floating-point numbers (NaN and the
    infinities included), strings, arrays and objects.  A string is a
    sequence of characters with code points below 256.  An integer of more
    than 4300 digits is never yielded by the parser, which refuses it. *)

From Stdlib Require Import String Ascii List ZArith NArith Bool Lia.
From Stdlib Require Import Floats.SpecFloat.
From Stdlib Require Import Sorting.Sorted Sorting.Permutation.
From Stdlib Require DecimalString.
Import ListNotations.
Open Scope string_scope.
Open Scope Z_scope.

(** ** Python values *)

Module Py.

(** What [request.get_json()] can return.  A dict is kept as its items in
    insertion order; keys are distinct and a lookup takes the first item.
    A float is a binary64 value given by sign, mantissa and binary
    exponent; of the floats the parser yields [valid_binary 53 1024]
    holds. *)
#[warnings="-register-all"]
Inductive pyval : Type :=
| PNone
| PBool (b : bool)
| PInt (z : Z)
| PFloat (x : spec_float)
| PStr (s : string)
| PList (l : list pyval)
| PDict (items : list (string * pyval)).

(** Exceptions.  The two driver classes carry [str(err)]; the message of an
    exception raised by the interpreter is never read by the program. *)
Inductive driver_exn : Type :=
| MySQLError (msg : string)      (* mysql.connector.Error and subclasses *)
| OtherError (msg : string).     (* any other Exception out of the driver *)

Inductive exn : Type :=
| FromDriver (e : driver_exn)
| TypeError
| ValueError
| OverflowError
| KeyError
| AttributeError.

Definition str_of_driver_exn (e : driver_exn) : string :=
  match e with MySQLError m => m | OtherError m => m end.

(** *** Truthiness: [if v], [not v] *)
Definition truthy (v : pyval) : bool :=
  match v with
  | PNone => false
  | PBool b => b
  | PInt z => negb (z =? 0)
  | PFloat x => match x with S754_zero _ => false | _ => true end
  | PStr s => negb (s =? "")%string
  | PList l => match l with [] => false | _ => true end
  | PDict d => match d with [] => false | _ => true end
  end.

(** *** [str(int)] *)
Definition str_of_Z (z : Z) : string :=
  DecimalString.NilZero.string_of_int (Z.to_int z).

(** *** [repr(float)]

    The shortest decimal that reads back as the same float, written as
    [float.__repr__] writes it. *)

(** [d * 10^k <= v * 2^q] is decided as [d * scale10 q k <= v * scale2 q k]. *)
Definition scale2 (q k : Z) : Z := 2 ^ Z.max q 0 * 10 ^ Z.max (- k) 0.
Definition scale10 (q k : Z) : Z := 2 ^ Z.max (- q) 0 * 10 ^ Z.max k 0.

(** The decimals [d * 10^k] that read back as the positive binary64 value
    [m * 2^e]: those between the midpoints to its two neighbours, the
    midpoints themselves when [m] is even (a tie goes to the even
    mantissa).  Counted in quarters of [2^e], the value is [4 * m], the
    midpoint above is [4 * m + 2] and the one below [4 * m - 2], or
    [4 * m - 1] under a power of two, where the neighbour is half as far. *)
Definition reads_back (m : positive) (e : Z) (d k : Z) : bool :=
  let below := if (Zpos m =? 2 ^ 52) && (-1074 <? e) then 1 else 2 in
  let lo := (4 * Zpos m - below) * scale2 (e - 2) k in
  let hi := (4 * Zpos m + 2) * scale2 (e - 2) k in
  let v := d * scale10 (e - 2) k in
  if Z.even (Zpos m) then (lo <=? v) && (v <=? hi) else (lo <? v) && (v <? hi).

(** The shortest decimal [d * 10^k] that reads back as [m * 2^e]: the
    largest [k] for which a multiple of [10^k] does; of the multiples just
    below and just above the value the nearer one, the even one when they
    are equally near. *)
Fixpoint shortest (fuel : nat) (m : positive) (e k : Z) : Z * Z :=
  let x := 4 * Zpos m * scale2 (e - 2) k in
  let unit := scale10 (e - 2) k in
  let lower := x / unit in
  let upper := lower + 1 in
  let low_ok := (0 <? lower) && reads_back m e lower k in
  let up_ok := reads_back m e upper k in
  let nearer :=
    match x - lower * unit ?= upper * unit - x with
    | Lt => lower
    | Gt => upper
    | Eq => if Z.even lower then lower else upper
    end in
  if low_ok && up_ok then (nearer, k)
  else if low_ok then (lower, k)
  else if up_ok then (upper, k)
  else match fuel with
       | S fuel' => shortest fuel' m e (k - 1)
       | O => (lower, k)
       end.

(** A power of ten above [m * 2^e]: [10^k > 2^(3 * k)]. *)
Definition above (m : positive) (e : Z) : Z :=
  (Z.log2 (Zpos m) + e + 1) * 30103 / 100000 + 1.

Fixpoint zeros (n : nat) : string :=
  match n with O => "" | S n' => String "0" (zeros n') end.

(** The digits [ds] with the decimal point after the first [point] of them:
    plain notation when [-4 < point <= 16], otherwise an exponent of at
    least two digits. *)
Definition place_point (ds : string) (point : Z) : string :=
  let len := Z.of_nat (String.length ds) in
  if (-4 <? point) && (point <=? 16) then
    if point <=? 0 then "0." ++ zeros (Z.to_nat (- point)) ++ ds
    else if len <=? point then ds ++ zeros (Z.to_nat (point - len)) ++ ".0"
    else substring 0 (Z.to_nat point) ds ++ "."
         ++ substring (Z.to_nat point) (Z.to_nat (len - point)) ds
  else
    let ex := point - 1 in
    substring 0 1 ds
    ++ (if 1 <? len then "." ++ substring 1 (Z.to_nat (len - 1)) ds else "")
    ++ "e" ++ (if ex <? 0 then "-" else "+")
    ++ (if Z.abs ex <? 10 then "0" else "") ++ str_of_Z (Z.abs ex).

Definition repr_float (f : spec_float) : string :=
  match f with
  | S754_nan => "nan"
  | S754_infinity s => if s then "-inf" else "inf"
  | S754_zero s => if s then "-0.0" else "0.0"
  | S754_finite s m e =>
      let (d, k) := shortest (Pos.size_nat m + 4) m e (above m e) in
      let ds := str_of_Z d in
      (if s then "-" else "") ++ place_point ds (Z.of_nat (String.length ds) + k)
  end.

(** *** [repr(str)] *)
Definition hex_digit (n : N) : ascii :=
  if (n <? 10)%N then ascii_of_N (48 + n) else ascii_of_N (87 + n).

Definition hex_escape (c : ascii) : string :=
  let n := N_of_ascii c in
  String "\" (String "x" (String (hex_digit (n / 16)) (String (hex_digit (n mod 16)) ""))).

(** [str.isprintable] on one character below 256. *)
Definition printable (c : ascii) : bool :=
  let n := N_of_ascii c in
  ((32 <=? n) && (n <? 127) || (161 <=? n) && negb (n =? 173))%N.

Fixpoint has_char (q : ascii) (s : string) : bool :=
  match s with
  | EmptyString => false
  | String c s' => Ascii.eqb c q || has_char q s'
  end.

Definition repr_quote (s : string) : ascii :=
  if has_char "'" s && negb (has_char "034" s) then "034"%char else "'"%char.

Definition repr_char (q c : ascii) : string :=
  if Ascii.eqb c q || Ascii.eqb c "\" then String "\" (String c "")
  else if Ascii.eqb c "009" then "\t"
  else if Ascii.eqb c "010" then "\n"
  else if Ascii.eqb c "013" then "\r"
  else if printable c then String c ""
  else hex_escape c.

Fixpoint repr_chars (q : ascii) (s : string) : string :=
  match s with
  | EmptyString => ""
  | String c s' => repr_char q c ++ repr_chars q s'
  end.

Definition repr_str (s : string) : string :=
  let q := repr_quote s in
  String q (repr_chars q s ++ String q "").

(** *** [repr(v)] and [str(v)] *)
Fixpoint repr (v : pyval) : string :=
  match v with
  | PNone => "None"
  | PBool true => "True"
  | PBool false => "False"
  | PInt z => str_of_Z z
  | PFloat x => repr_float x
  | PStr s => repr_str s
  | PList l =>
      "[" ++ String.concat ", " (map repr l) ++ "]"
  | PDict d =>
      "{" ++ String.concat ", "
               ((fix items (d : list (string * pyval)) : list string :=
                   match d with
                   | [] => []
                   | (k, x) :: d' => (repr_str k ++ ": " ++ repr x) :: items d'
                   end) d) ++ "}"
  end.

Definition str (v : pyval) : string :=
  match v with
  | PStr s => s
  | _ => repr v
  end.

(** *** Iteration: what [map(str, v)] walks over *)
Fixpoint chars (s : string) : list pyval :=
  match s with
  | EmptyString => []
  | String c s' => PStr (String c "") :: chars s'
  end.

Definition iter (v : pyval) : exn + list pyval :=
  match v with
  | PList l => inr l
  | PStr s => inr (chars s)
  | PDict d => inr (map (fun kv => PStr (fst kv)) d)
  | PNone | PBool _ | PInt _ | PFloat _ => inl TypeError
  end.

(** *** [",".join(...)] and [text.split(',')] *)
Definition join (sep : string) (l : list string) : string := String.concat sep l.

Fixpoint split (sep : ascii) (s : string) : list string :=
  match s with
  | EmptyString => [""]
  | String c s' =>
      if Ascii.eqb c sep then "" :: split sep s'
      else match split sep s' with
           | piece :: rest => String c piece :: rest
           | [] => [String c ""]
           end
  end.

(** *** [int(v)] *)

(** The characters [int] strips from both ends of a string: the ASCII
    white space (tab to carriage return, and the space) and, above 127, the
    two characters [str.isspace] accepts (next line and no-break space).
    The separators 28 to 31 are not stripped. *)
Definition is_space (c : ascii) : bool :=
  let n := N_of_ascii c in
  ((9 <=? n) && (n <=? 13) || (n =? 32) || (n =? 133) || (n =? 160))%N.

Definition is_digit (c : ascii) : bool :=
  let n := N_of_ascii c in ((48 <=? n) && (n <=? 57))%N.

Definition digit_val (c : ascii) : Z := Z.of_N (N_of_ascii c) - 48.

Fixpoint lstrip (l : list ascii) : list ascii :=
  match l with
  | c :: l' => if is_space c then lstrip l' else l
  | [] => []
  end.

Definition strip (l : list ascii) : list ascii := rev (lstrip (rev (lstrip l))).

(** Decimal digits with single underscores between them. *)
Fixpoint digits (acc : Z) (after_digit : bool) (l : list ascii) : option Z :=
  match l with
  | [] => if after_digit then Some acc else None
  | c :: l' =>
      if is_digit c then digits (10 * acc + digit_val c) true l'
      else if Ascii.eqb c "_" && after_digit then digits acc false l'
      else None
  end.

(** [sys.int_info.default_max_str_digits]: a string with more digits is
    refused (leading zeros count, the sign and the underscores do not). *)
Definition int_max_str_digits : nat := 4300.

Definition within_limit (l : list ascii) : bool :=
  (length (filter is_digit l) <=? int_max_str_digits)%nat.

Definition int_of_string (s : string) : option Z :=
  let l := strip (list_ascii_of_string s) in
  if within_limit l then
    match l with
    | c :: l' =>
        if Ascii.eqb c "-" then option_map Z.opp (digits 0 false l')
        else if Ascii.eqb c "+" then digits 0 false l'
        else digits 0 false (c :: l')
    | [] => None
    end
  else None.

(** [int(float)]: the fraction is cut off (towards zero); an infinity and
    NaN have no integer. *)
Definition int_of_float (x : spec_float) : exn + Z :=
  match x with
  | S754_zero _ => inr 0
  | S754_finite s m e => inr ((if s then Z.opp else (fun z => z)) (Z.shiftl (Zpos m) e))
  | S754_infinity _ => inl OverflowError
  | S754_nan => inl ValueError
  end.

Definition int (v : pyval) : exn + Z :=
  match v with
  | PInt z => inr z
  | PBool b => inr (if b then 1 else 0)
  | PFloat x => int_of_float x
  | PStr s => match int_of_string s with Some z => inr z | None => inl ValueError end
  | PNone | PList _ | PDict _ => inl TypeError
  end.

(** *** [key in v] and [v[key]] for a string key *)
Fixpoint lookup (k : string) (d : list (string * pyval)) : option pyval :=
  match d with
  | [] => None
  | (k', x) :: d' => if (k' =? k)%string then Some x else lookup k d'
  end.

Definition is_str (k : string) (v : pyval) : bool :=
  match v with PStr s => (s =? k)%string | _ => false end.

Fixpoint substring_at (k s : string) : bool := String.prefix k s ||
  match s with
  | EmptyString => false
  | String _ s' => substring_at k s'
  end.

Definition contains (v : pyval) (k : string) : exn + bool :=
  match v with
  | PDict d => inr (match lookup k d with Some _ => true | None => false end)
  | PList l => inr (existsb (is_str k) l)
  | PStr s => inr (substring_at k s)
  | PNone | PBool _ | PInt _ | PFloat _ => inl TypeError
  end.

Definition getitem (v : pyval) (k : string) : exn + pyval :=
  match v with
  | PDict d => match lookup k d with Some x => inr x | None => inl KeyError end
  | _ => inl TypeError
  end.

End Py.

(** ** The store: the [bookings] table and the MySQL driver *)

Module Db.
Import Py.

(** A row of [bookings], columns as in the CREATE TABLE statement of
    [create_table].  A text column holds the value the INSERT bound to it
    (the server's own casts are not modelled, so row contents are only
    stated for string values).  [S] is the type of the [selected_seats]
    entry: the stored text (or NULL) in the table, a list once
    [get_bookings] has split it. *)
Record Row (S : Type) : Type := mkRow {
  id : Z;
  name : pyval;
  phone_no : pyval;
  from_station : pyval;
  to_station : pyval;
  travel_date : pyval;
  travel_time : pyval;
  no_of_passengers : Z;
  class : pyval;
  selected_seats : S;
  created_at : Z
}.
Arguments mkRow {S}.
Arguments id {S}. Arguments name {S}. Arguments phone_no {S}.
Arguments from_station {S}. Arguments to_station {S}.
Arguments travel_date {S}. Arguments travel_time {S}.
Arguments no_of_passengers {S}. Arguments class {S}.
Arguments selected_seats {S}. Arguments created_at {S}.

Definition Booking : Type := Row (option string).

(** The tuple [values] of [add_booking]. *)
Record Values : Type := mkValues {
  v_name : pyval;
  v_phone_no : pyval;
  v_from_station : pyval;
  v_to_station : pyval;
  v_travel_date : pyval;
  v_travel_time : pyval;
  v_no_of_passengers : Z;
  v_class : pyval;
  v_selected_seats : string
}.

(** The three statements the service sends. *)
Inductive Statement : Type :=
| CreateTableIfNotExists
| InsertBooking (values : Values)
| SelectOrderByCreatedAtDesc.

(** How the driver and the server behind it answer during one request:
    which calls raise, what [is_connected] says, and how the server orders
    rows whose [created_at] are equal. *)
Record Driver : Type := mkDriver {
  connect_raises : option driver_exn;
  cursor_raises : option driver_exn;
  execute_raises : Statement -> option driver_exn;
  commit_raises : option driver_exn;
  fetchall_raises : option driver_exn;
  is_connected_answer : driver_exn + bool;
  no_such_table : driver_exn;
  tie : Booking -> Booking -> bool
}.

Inductive Call : Type :=
| CallConnect
| CallCursor
| CallExecute (st : Statement)
| CallCommit
| CallFetchall
| CallIsConnected
| CallCursorClose
| CallConnClose.

(** The connection and cursor objects are tokens: the state behind them
    (the open transaction, [lastrowid], the rows of the last SELECT) is kept
    in the world, as one request holds at most one of each. *)
Inductive Conn : Type := Connection.
Inductive Cursor : Type := CursorObject.

Record World : Type := mkWorld {
  table : option (list Booking);   (* committed rows, oldest first; None: no table yet *)
  auto_increment : Z;              (* the next id *)
  now : Z;                         (* CURRENT_TIMESTAMP *)
  uncommitted : list Booking;      (* rows of the open transaction *)
  lastrowid : pyval;               (* of the open cursor *)
  fetched : list Booking;          (* result set of the open cursor *)
  open_conns : Z;                 (* connections opened and not yet closed *)
  open_cursors : Z;
  calls : list Call;               (* driver calls, latest first *)
  stdout : list string             (* printed lines, latest first *)
}.

Definition set_table (t : option (list Booking)) (w : World) : World :=
  mkWorld t (auto_increment w) (now w) (uncommitted w) (lastrowid w) (fetched w)
          (open_conns w) (open_cursors w) (calls w) (stdout w).
Definition set_auto_increment (n : Z) (w : World) : World :=
  mkWorld (table w) n (now w) (uncommitted w) (lastrowid w) (fetched w)
          (open_conns w) (open_cursors w) (calls w) (stdout w).
Definition set_uncommitted (u : list Booking) (w : World) : World :=
  mkWorld (table w) (auto_increment w) (now w) u (lastrowid w) (fetched w)
          (open_conns w) (open_cursors w) (calls w) (stdout w).
Definition set_lastrowid (v : pyval) (w : World) : World :=
  mkWorld (table w) (auto_increment w) (now w) (uncommitted w) v (fetched w)
          (open_conns w) (open_cursors w) (calls w) (stdout w).
Definition set_fetched (r : list Booking) (w : World) : World :=
  mkWorld (table w) (auto_increment w) (now w) (uncommitted w) (lastrowid w) r
          (open_conns w) (open_cursors w) (calls w) (stdout w).
Definition set_open_conns (n : Z) (w : World) : World :=
  mkWorld (table w) (auto_increment w) (now w) (uncommitted w) (lastrowid w) (fetched w)
          n (open_cursors w) (calls w) (stdout w).
Definition set_open_cursors (n : Z) (w : World) : World :=
  mkWorld (table w) (auto_increment w) (now w) (uncommitted w) (lastrowid w) (fetched w)
          (open_conns w) n (calls w) (stdout w).
Definition log_call (c : Call) (w : World) : World :=
  mkWorld (table w) (auto_increment w) (now w) (uncommitted w) (lastrowid w) (fetched w)
          (open_conns w) (open_cursors w) (c :: calls w) (stdout w).
Definition write_line (line : string) (w : World) : World :=
  mkWorld (table w) (auto_increment w) (now w) (uncommitted w) (lastrowid w) (fetched w)
          (open_conns w) (open_cursors w) (calls w) (line :: stdout w).

(** ORDER BY created_at DESC: newest first, equal timestamps as [tie] says. *)
Definition goes_before (tie : Booking -> Booking -> bool) (a b : Booking) : bool :=
  (created_at b <? created_at a) || ((created_at a =? created_at b) && tie a b).

Fixpoint insert_desc (tie : Booking -> Booking -> bool) (a : Booking) (l : list Booking)
  : list Booking :=
  match l with
  | [] => [a]
  | b :: l' => if goes_before tie a b then a :: l else b :: insert_desc tie a l'
  end.

Definition order_by_created_at_desc (tie : Booking -> Booking -> bool) (l : list Booking)
  : list Booking :=
  fold_right (insert_desc tie) [] l.

(** The clock moves between requests. *)
Definition tick (dt : Z) (w : World) : World :=
  mkWorld (table w) (auto_increment w) (now w + Z.max 0 dt) (uncommitted w)
          (lastrowid w) (fetched w) (open_conns w) (open_cursors w) (calls w) (stdout w).

(** What a statement that the server accepts does. *)
Definition new_row (v : Values) (w : World) : Booking :=
  mkRow (auto_increment w) (v_name v) (v_phone_no v) (v_from_station v) (v_to_station v)
        (v_travel_date v) (v_travel_time v) (v_no_of_passengers v) (v_class v)
        (Some (v_selected_seats v)) (now w).

Definition run_statement (d : Driver) (st : Statement) (w : World) : driver_exn + World :=
  match execute_raises d st with
  | Some e => inl e
  | None =>
      match st, table w with
      | CreateTableIfNotExists, None => inr (set_table (Some []) w)
      | CreateTableIfNotExists, Some _ => inr w
      | _, None => inl (no_such_table d)
      | InsertBooking v, Some _ =>
          inr (set_lastrowid (PInt (auto_increment w))
                 (set_auto_increment (auto_increment w + 1)
                    (set_uncommitted (uncommitted w ++ [new_row v w])%list w)))
      | SelectOrderByCreatedAtDesc, Some rows =>
          inr (set_fetched (order_by_created_at_desc (tie d) rows) w)
      end
  end.

Definition run_commit (w : World) : World :=
  match table w with
  | Some rows => set_uncommitted [] (set_table (Some (rows ++ uncommitted w)%list) w)
  | None => w
  end.

End Db.

(** ** The application *)

Module App.
Import Py Db.

(** *** Handler computations

    A computation runs on a frame: the locals [conn] and [cursor] that the
    [finally] blocks inspect (unbound, or bound to a value) and the world.
    It returns a value or raises.  [E] is the type of the exceptions it can
    raise: [driver_exn] where only driver calls are made, [exn] elsewhere. *)

Record Frame : Type := mkFrame {
  conn : option (option Conn);     (* None: not in locals(); Some None: bound to None *)
  cursor : option Cursor;
  world : World
}.

Inductive result (E A : Type) : Type :=
| Return (a : A)
| Raise (e : E).
Arguments Return {E A}.
Arguments Raise {E A}.

Definition M (E A : Type) : Type := Frame -> result E A * Frame.

Definition ret {E A} (a : A) : M E A := fun f => (Return a, f).

Definition raise {E A} (e : E) : M E A := fun f => (Raise e, f).

Definition bind {E A B} (c : M E A) (k : A -> M E B) : M E B :=
  fun f => match c f with
           | (Return a, f') => k a f'
           | (Raise e, f') => (Raise e, f')
           end.

Declare Scope handler_scope.
Delimit Scope handler_scope with handler.
Notation "x <- c ;; k" := (bind c (fun x => k))
  (at level 61, c at next level, right associativity) : handler_scope.
Notation "c ;; k" := (bind c (fun _ => k))
  (at level 61, right associativity) : handler_scope.
Open Scope handler_scope.

(** A pure builtin that may raise. *)
Definition lift {A} (r : exn + A) : M exn A :=
  match r with inr a => ret a | inl e => raise e end.

(** A driver-only computation inside a handler that can raise anything. *)
Definition from_driver {A} (c : M driver_exn A) : M exn A :=
  fun f => match c f with
           | (Return a, f') => (Return a, f')
           | (Raise e, f') => (Raise (FromDriver e), f')
           end.

(** [try: body  except <class> as err: handler]; [sel] says whether an
    exception is of the class and gives [str(err)]. *)
Definition try_except {E A} (sel : E -> option string) (body : M E A)
    (handler : string -> M E A) : M E A :=
  fun f => match body f with
           | (Return a, f') => (Return a, f')
           | (Raise e, f') => match sel e with
                              | Some err => handler err f'
                              | None => (Raise e, f')
                              end
           end.

(** [try: body  finally: cleanup] *)
Definition try_finally {E A} (body : M E A) (cleanup : M E unit) : M E A :=
  fun f => match body f with
           | (r, f') => match cleanup f' with
                        | (Return _, f'') => (r, f'')
                        | (Raise e, f'') => (Raise e, f'')
                        end
           end.

(** [except mysql.connector.Error] *)
Definition mysql_error (e : driver_exn) : option string :=
  match e with MySQLError m => Some m | OtherError _ => None end.

Definition mysql_error' (e : exn) : option string :=
  match e with FromDriver e' => mysql_error e' | _ => None end.

(** [except Exception] *)
Definition any_exception (e : driver_exn) : option string := Some (str_of_driver_exn e).

Definition on_world {E} (g : World -> World) : M E unit :=
  fun f => (Return tt, mkFrame (conn f) (cursor f) (g (world f))).

Definition the_world {E} : M E World := fun f => (Return (world f), f).

Definition print {E} (line : string) : M E unit := on_world (write_line line).

Definition assign_conn {E} (c : option Conn) : M E unit :=
  fun f => (Return tt, mkFrame (Some c) (cursor f) (world f)).

Definition assign_cursor {E} (c : Cursor) : M E unit :=
  fun f => (Return tt, mkFrame (conn f) (Some c) (world f)).

(** The response of a handler: [jsonify(body), status]. *)
Inductive Body : Type :=
| Json (v : pyval)
| BookingsJson (bookings : list (Row (list string))).

Record Response : Type := mkResponse { body : Body; status : Z }.

Definition jsonify (items : list (string * pyval)) : Body := Json (PDict items).

Section Handlers.

Variable d : Driver.

(** *** Driver calls *)

Definition driver_call (c : Call) (raises : option driver_exn) : M driver_exn unit :=
  on_world (log_call c) ;;
  match raises with Some e => raise e | None => ret tt end.

(** [mysql.connector.connect(...)] *)
Definition connect : M driver_exn Conn :=
  driver_call CallConnect (connect_raises d) ;;
  on_world (fun w => set_open_conns (open_conns w + 1) w) ;;
  ret Connection.

(** [conn.cursor()] *)
Definition conn_cursor : M driver_exn Cursor :=
  driver_call CallCursor (cursor_raises d) ;;
  on_world (fun w => set_open_cursors (open_cursors w + 1)
                       (set_fetched [] (set_lastrowid PNone w))) ;;
  ret CursorObject.

(** [cursor.execute(statement)] *)
Definition cursor_execute (st : Statement) : M driver_exn unit :=
  on_world (log_call (CallExecute st)) ;;
  w <- the_world ;;
  match run_statement d st w with
  | inl e => raise e
  | inr w' => on_world (fun _ => w')
  end.

(** [conn.commit()] *)
Definition conn_commit : M driver_exn unit :=
  driver_call CallCommit (commit_raises d) ;;
  on_world run_commit.

(** [cursor.fetchall()] *)
Definition cursor_fetchall : M driver_exn (list Booking) :=
  driver_call CallFetchall (fetchall_raises d) ;;
  w <- the_world ;;
  ret (fetched w).

(** [conn.is_connected()] *)
Definition conn_is_connected : M driver_exn bool :=
  on_world (log_call CallIsConnected) ;;
  match is_connected_answer d with inl e => raise e | inr b => ret b end.

(** [cursor.close()] *)
Definition cursor_close {E} : M E unit :=
  on_world (fun w => set_open_cursors (open_cursors w - 1) (log_call CallCursorClose w)).

(** [conn.close()]: what was not committed is rolled back. *)
Definition conn_close {E} : M E unit :=
  on_world (fun w => set_uncommitted [] (set_open_conns (open_conns w - 1)
                                           (log_call CallConnClose w))).

(** *** get_db_connection *)
Definition get_db_connection : M driver_exn (option Conn) :=
  try_except mysql_error
    (c <- connect ;;
     ret (Some c))
    (fun err =>
       print ("Database connection failed: " ++ err) ;;
       ret None).

(** The two [finally] blocks. *)
Definition close_cursor_if_bound {E} : M E unit :=
  fun f => match cursor f with
           | Some _ => cursor_close f
           | None => ret tt f
           end.

Definition close_conn_if_open {E} : M E unit :=
  fun f => match conn f with
           | Some (Some _) => conn_close f
           | _ => ret tt f
           end.

Definition release {E} : M E unit := close_cursor_if_bound ;; close_conn_if_open.

(** *** create_table *)

(** [conn.cursor()] where [conn] may be None. *)
Definition cursor_of (c : option Conn) : M exn Cursor :=
  match c with
  | Some _ => from_driver conn_cursor
  | None => raise AttributeError
  end.

Definition create_table_body : M exn unit :=
  try_finally
    (try_except mysql_error'
       (c <- from_driver get_db_connection ;;
        assign_conn c ;;
        cur <- cursor_of c ;;
        assign_cursor cur ;;
        from_driver (cursor_execute CreateTableIfNotExists) ;;
        from_driver conn_commit ;;
        print "Table created successfully or already exists")
       (fun err => print (" Error creating table: " ++ err)))
    release.

(** *** POST /book *)

Definition required_fields : list string :=
  [ "name"; "phone_no"; "from_station"; "to_station";
    "travel_date"; "travel_time"; "no_of_passengers"; "class"; "selected_seats" ].

(** The [for field in required_fields] loop: the first field for which
    [field not in data] holds, if any. *)
Fixpoint first_missing (fields : list string) (data : pyval) : exn + option string :=
  match fields with
  | [] => inr None
  | field :: rest =>
      match contains data field with
      | inl e => inl e
      | inr false => inr (Some field)
      | inr true => first_missing rest data
      end
  end.

(** [",".join(map(str, data["selected_seats"])) if data["selected_seats"] else ""] *)
Definition seats_str (data : pyval) : exn + string :=
  match getitem data "selected_seats" with
  | inl e => inl e
  | inr v =>
      if truthy v then
        match iter v with
        | inl e => inl e
        | inr l => inr (join "," (map str l))
        end
      else inr ""
  end.

Definition make_values (data : pyval) (seats : string) : M exn Values :=
  name <- lift (getitem data "name") ;;
  phone_no <- lift (getitem data "phone_no") ;;
  from_station <- lift (getitem data "from_station") ;;
  to_station <- lift (getitem data "to_station") ;;
  travel_date <- lift (getitem data "travel_date") ;;
  travel_time <- lift (getitem data "travel_time") ;;
  passengers <- lift (getitem data "no_of_passengers") ;;
  no_of_passengers <- lift (int passengers) ;;
  class <- lift (getitem data "class") ;;
  ret (mkValues name phone_no from_station to_station travel_date travel_time
         no_of_passengers class seats).

Definition add_booking_try (data : pyval) : M exn Response :=
  try_finally
    (try_except mysql_error'
       (c <- from_driver get_db_connection ;;
        assign_conn c ;;
        match c with
        | None =>
            ret (mkResponse (jsonify [("error", PStr "Database connection failed")]) 500)
        | Some _ =>
            cur <- from_driver conn_cursor ;;
            assign_cursor cur ;;
            seats <- lift (seats_str data) ;;
            values <- make_values data seats ;;
            from_driver (cursor_execute (InsertBooking values)) ;;
            from_driver conn_commit ;;
            w <- the_world ;;
            let booking_id := lastrowid w in
            ret (mkResponse
                   (jsonify [("message", PStr "Booking added successfully!");
                             ("booking_id", booking_id);
                             ("data", data)]) 201)
        end)
       (fun err =>
          print ("Database Error: " ++ err) ;;
          ret (mkResponse (jsonify [("error", PStr ("Database error: " ++ err))]) 500)))
    release.

Definition add_booking_body (data : pyval) : M exn Response :=
  print ("Received booking data: " ++ str data) ;;
  missing <- lift (first_missing required_fields data) ;;
  match missing with
  | Some field =>
      ret (mkResponse (jsonify [("error", PStr ("Missing field: " ++ field))]) 400)
  | None => add_booking_try data
  end.

(** *** GET /bookings *)

(** [booking['selected_seats'].split(',') if booking['selected_seats'] else []] *)
Definition split_seats (text : option string) : list string :=
  match text with
  | Some s => if negb (s =? "")%string then split "," s else []
  | None => []
  end.

Definition with_seat_list (b : Booking) : Row (list string) :=
  mkRow (id b) (name b) (phone_no b) (from_station b) (to_station b)
        (travel_date b) (travel_time b) (no_of_passengers b) (class b)
        (split_seats (selected_seats b)) (created_at b).

Definition get_bookings_body : M exn Response :=
  try_finally
    (try_except mysql_error'
       (c <- from_driver get_db_connection ;;
        assign_conn c ;;
        match c with
        | None =>
            ret (mkResponse (jsonify [("error", PStr "Database connection failed")]) 500)
        | Some _ =>
            cur <- from_driver conn_cursor ;;
            assign_cursor cur ;;
            from_driver (cursor_execute SelectOrderByCreatedAtDesc) ;;
            bookings <- from_driver cursor_fetchall ;;
            ret (mkResponse (BookingsJson (map with_seat_list bookings)) 200)
        end)
       (fun err =>
          ret (mkResponse (jsonify [("error", PStr ("Database error: " ++ err))]) 500)))
    release.

(** *** GET /health *)

Definition health_check_body : M driver_exn Response :=
  try_finally
    (try_except any_exception
       (c <- get_db_connection ;;
        assign_conn c ;;
        alive <- match c with
                 | Some _ => conn_is_connected
                 | None => ret false
                 end ;;
        if alive then
          ret (mkResponse (jsonify [("status", PStr "healthy");
                                    ("database", PStr "connected")]) 200)
        else
          ret (mkResponse (jsonify [("status", PStr "unhealthy");
                                    ("database", PStr "disconnected")]) 500))
       (fun err =>
          ret (mkResponse (jsonify [("status", PStr "unhealthy");
                                    ("error", PStr err)]) 500)))
    close_conn_if_open.

(** *** The functions as the runtime calls them: on fresh locals *)

Definition call {E A} (c : M E A) (w : World) : result E A * World :=
  match c (mkFrame None None w) with
  | (r, f) => (r, world f)
  end.

Definition create_table : World -> result exn unit * World := call create_table_body.

Definition add_booking (data : pyval) : World -> result exn Response * World :=
  call (add_booking_body data).

Definition get_bookings : World -> result exn Response * World := call get_bookings_body.

Definition health_check : World -> result driver_exn Response * World :=
  call health_check_body.

End Handlers.

End App.

(** ** Notions used to state the properties *)

Module Props.
Import Py Db App.

(** A seat string without a comma. *)
Definition comma_free (s : string) : Prop := has_char "," s = false.

(** A payload value that is a sequence of strings. *)
Definition seat_list (seats : list string) : pyval := PList (map PStr seats).

(** The text [add_booking] stores for a sequence of seat strings. *)
Definition stored_seats (seats : list string) : exn + string :=
  seats_str (PDict [("selected_seats", seat_list seats)]).

(** Store, then list: [get_bookings] gives back the sequence [add_booking]
    was given. *)
Definition seats_round_trip (seats : list string) : Prop :=
  exists text, stored_seats seats = inr text /\ split_seats (Some text) = seats.

(** A key of a JSON object payload. *)
Definition present (items : list (string * pyval)) (field : string) : Prop :=
  lookup field items <> None.

Definition absent (items : list (string * pyval)) (field : string) : Prop :=
  lookup field items = None.

(** [field] is the first required key that [items] lacks. *)
Definition first_absent (items : list (string * pyval)) (field : string) : Prop :=
  exists pre post,
    required_fields = (pre ++ field :: post)%list
    /\ Forall (present items) pre
    /\ absent items field.

(** The bodies of the error responses. *)
Definition missing_field (field : string) : Response :=
  mkResponse (Json (PDict [("error", PStr ("Missing field: " ++ field))])) 400.

Definition connection_failed : Response :=
  mkResponse (Json (PDict [("error", PStr "Database connection failed")])) 500.

Definition database_error (msg : string) : Response :=
  mkResponse (Json (PDict [("error", PStr ("Database error: " ++ msg))])) 500.

(** What the handler opened it has closed. *)
Definition released (w w' : World) : Prop :=
  open_conns w' = open_conns w /\ open_cursors w' = open_cursors w.

(** Newest first: no row is older than a row after it. *)
Definition newest_first {S : Type} (l : list (Row S)) : Prop :=
  StronglySorted (fun x y => created_at y <= created_at x) l.

(** The committed rows are in the order of their insertion, none stamped
    after the current time, and no transaction is open: the state of the
    store between two requests. *)
Definition chronological (rows : list Booking) : Prop :=
  StronglySorted (fun x y => created_at x <= created_at y) rows.

Definition settled (w : World) : Prop :=
  uncommitted w = []
  /\ forall rows, table w = Some rows ->
       chronological rows /\ Forall (fun x => created_at x <= now w) rows.

(** The driver does not fail while the rows are listed. *)
Definition lists_rows (d : Driver) : Prop :=
  connect_raises d = None
  /\ cursor_raises d = None
  /\ execute_raises d SelectOrderByCreatedAtDesc = None
  /\ fetchall_raises d = None.

(** The driver does not fail while the booking [values] is inserted. *)
Definition accepts (d : Driver) (values : Values) : Prop :=
  connect_raises d = None
  /\ cursor_raises d = None
  /\ execute_raises d (InsertBooking values) = None
  /\ commit_raises d = None.

(** The body of the 201 response. *)
Definition booking_added (booking_id : Z) (data : pyval) : Response :=
  mkResponse (Json (PDict [("message", PStr "Booking added successfully!");
                           ("booking_id", PInt booking_id);
                           ("data", data)])) 201.

(** [values] is the tuple that [add_booking] builds from the JSON object
    [items]: every subscription succeeds, [int] accepts the passenger count
    and line 96 gives the seat text. *)
Definition payload_values (items : list (string * pyval)) (values : Values) : Prop :=
  lookup "name" items = Some (v_name values)
  /\ lookup "phone_no" items = Some (v_phone_no values)
  /\ lookup "from_station" items = Some (v_from_station values)
  /\ lookup "to_station" items = Some (v_to_station values)
  /\ lookup "travel_date" items = Some (v_travel_date values)
  /\ lookup "travel_time" items = Some (v_travel_time values)
  /\ (exists passengers,
        lookup "no_of_passengers" items = Some passengers
        /\ int passengers = inr (v_no_of_passengers values))
  /\ lookup "class" items = Some (v_class values)
  /\ (exists seats, lookup "selected_seats" items = Some seats)
  /\ seats_str (PDict items) = inr (v_selected_seats values).

(** A booking as the data model has it: text fields, a passenger count and
    a sequence of seats. *)
Record Journey : Type := mkJourney {
  j_name : string;
  j_phone_no : string;
  j_from_station : string;
  j_to_station : string;
  j_travel_date : string;
  j_travel_time : string;
  j_no_of_passengers : Z;
  j_class : string;
  j_selected_seats : list string
}.

Definition values_of (j : Journey) : Values :=
  mkValues (PStr (j_name j)) (PStr (j_phone_no j)) (PStr (j_from_station j))
           (PStr (j_to_station j)) (PStr (j_travel_date j)) (PStr (j_travel_time j))
           (j_no_of_passengers j) (PStr (j_class j)) (join "," (j_selected_seats j)).

(** The row of a listing that shows [j] with the given id and timestamp. *)
Definition listed (booking_id stamp : Z) (j : Journey) : Row (list string) :=
  mkRow booking_id (PStr (j_name j)) (PStr (j_phone_no j)) (PStr (j_from_station j))
        (PStr (j_to_station j)) (PStr (j_travel_date j)) (PStr (j_travel_time j))
        (j_no_of_passengers j) (PStr (j_class j)) (j_selected_seats j) stamp.

(** The row [r] of a listing shows the stored row [b]: the same id, the same
    columns and the same timestamp, and for seats the stored text cut at
    its commas, NULL and the empty text giving no seats. *)
Definition shows (r : Row (list string)) (b : Booking) : Prop :=
  id r = id b
  /\ name r = name b
  /\ phone_no r = phone_no b
  /\ from_station r = from_station b
  /\ to_station r = to_station b
  /\ travel_date r = travel_date b
  /\ travel_time r = travel_time b
  /\ no_of_passengers r = no_of_passengers b
  /\ class r = class b
  /\ created_at r = created_at b
  /\ selected_seats r = match selected_seats b with
                        | None | Some EmptyString => []
                        | Some text => split "," text
                        end.

(** [x] comes before [y] in [l]. *)
Definition precedes {A : Type} (x y : A) (l : list A) : Prop :=
  exists l1 l2 l3, l = (l1 ++ x :: l2 ++ y :: l3)%list.

(** Inputs for the examples: a driver that never fails, a store with an
    empty table, and the payload of the specification's example. *)
Definition steady : Driver :=
  mkDriver None None (fun _ => None) None None (inr true)
           (MySQLError "1146 (42S02): Table bookings does not exist")
           (fun _ _ => true).

Definition unreachable (msg : string) : Driver :=
  mkDriver (Some (MySQLError msg)) None (fun _ => None) None None (inr false)
           (MySQLError "1146 (42S02): Table bookings does not exist")
           (fun _ _ => true).

Definition empty_store : World := mkWorld (Some []) 1 0 [] PNone [] 0 0 [] [].

(** A store holding two bookings made five seconds apart. *)
Definition stored_booking (n stamp : Z) (seats : string) : Booking :=
  mkRow n (PStr "A") (PStr "123") (PStr "X") (PStr "Y") (PStr "2024-01-01")
        (PStr "10:00") 2 (PStr "AC") (Some seats) stamp.

Definition two_bookings : World :=
  mkWorld (Some [stored_booking 1 0 "A1,A2"; stored_booking 2 5 "B7"]) 3 9 [] PNone [] 0 0 [] [].

Definition booking_payload (passengers seats : pyval) : list (string * pyval) :=
  [ ("name", PStr "A"); ("phone_no", PStr "123"); ("from_station", PStr "X");
    ("to_station", PStr "Y"); ("travel_date", PStr "2024-01-01");
    ("travel_time", PStr "10:00"); ("no_of_passengers", passengers);
    ("class", PStr "AC"); ("selected_seats", seats) ].

(** The example payload with one seat, the empty string. *)
Definition empty_seat_booking : pyval :=
  PDict (booking_payload (PInt 2) (seat_list [""])).

(** The floats 2.5, 0.1 and 1e16, each as mantissa and binary exponent. *)
Definition two_and_a_half : spec_float := S754_finite false 5629499534213120 (-51).
Definition one_tenth : spec_float := S754_finite false 7205759403792794 (-56).
Definition ten_to_the_16 : spec_float := S754_finite false 5000000000000000 1.

(** The example payload as a journey. *)
Definition example_journey : Journey :=
  mkJourney "A" "123" "X" "Y" "2024-01-01" "10:00" 2 "AC" ["A1"; "A2"].

(** ** Notions used by the further properties *)

(** The handler went as far as opening a cursor, sent no statement and
    closed cursor and connection. *)
Definition raised_before_insert (w w' : World) : Prop :=
  calls w' = CallConnClose :: CallCursorClose :: CallCursor :: CallConnect :: calls w.

(** The store refuses the CREATE TABLE with a driver error: when the cursor
    is opened, when the statement runs or when it is committed. *)
Definition create_rejected (d : Driver) (msg : string) : Prop :=
  cursor_raises d = Some (MySQLError msg)
  \/ (cursor_raises d = None
      /\ execute_raises d CreateTableIfNotExists = Some (MySQLError msg))
  \/ (cursor_raises d = None
      /\ execute_raises d CreateTableIfNotExists = None
      /\ commit_raises d = Some (MySQLError msg)).

(** The driver does not fail while the table is created. *)
Definition creates (d : Driver) : Prop :=
  connect_raises d = None
  /\ cursor_raises d = None
  /\ execute_raises d CreateTableIfNotExists = None
  /\ commit_raises d = None.

(** The rows of the table, none when there is no table. *)
Definition rows_of (w : World) : list Booking :=
  match table w with Some rows => rows | None => [] end.

(** The store refuses the INSERT of [values] with a driver error: when the
    cursor is opened, when the statement runs or when it is committed. *)
Definition insert_rejected (d : Driver) (values : Values) (msg : string) : Prop :=
  cursor_raises d = Some (MySQLError msg)
  \/ (cursor_raises d = None
      /\ execute_raises d (InsertBooking values) = Some (MySQLError msg))
  \/ (cursor_raises d = None
      /\ execute_raises d (InsertBooking values) = None
      /\ commit_raises d = Some (MySQLError msg)).

(** The store refuses the SELECT with a driver error: when the cursor is
    opened, when the statement runs or when the rows are fetched. *)
Definition select_rejected (d : Driver) (msg : string) : Prop :=
  cursor_raises d = Some (MySQLError msg)
  \/ (cursor_raises d = None
      /\ execute_raises d SelectOrderByCreatedAtDesc = Some (MySQLError msg))
  \/ (cursor_raises d = None
      /\ execute_raises d SelectOrderByCreatedAtDesc = None
      /\ fetchall_raises d = Some (MySQLError msg)).

(** The bodies of the health responses. *)
Definition healthy : Response :=
  mkResponse (Json (PDict [("status", PStr "healthy"); ("database", PStr "connected")])) 200.

Definition disconnected : Response :=
  mkResponse (Json (PDict [("status", PStr "unhealthy"); ("database", PStr "disconnected")]))
             500.

Definition unhealthy (msg : string) : Response :=
  mkResponse (Json (PDict [("status", PStr "unhealthy"); ("error", PStr msg)])) 500.

(** Ids are unique and below the id counter. *)
Definition ids_fresh (w : World) : Prop :=
  forall rows, table w = Some rows ->
    NoDup (map id rows) /\ Forall (fun b => id b < auto_increment w) rows.

(** The payload is not a JSON object. *)
Definition not_an_object (data : pyval) : Prop :=
  match data with PDict _ => False | _ => True end.

(** The payload is null, a boolean or a number. *)
Definition scalar (data : pyval) : Prop :=
  match data with PNone | PBool _ | PInt _ | PFloat _ => True | _ => False end.

(** The number of commas of a text. *)
Fixpoint commas (s : string) : nat :=
  match s with
  | EmptyString => 0
  | String c s' => (if Ascii.eqb c "," then 1 else 0) + commas s'
  end.

(** The stored seat text of a row, NULL read as the empty text. *)
Definition seat_text (b : Booking) : string :=
  match selected_seats b with Some s => s | None => "" end.

(** The characters of a string, each as a string of its own. *)
Fixpoint letters (s : string) : list string :=
  match s with
  | EmptyString => []
  | String c s' => String c "" :: letters s'
  end.

(** A JSON array payload has the string [field] among its elements. *)
Definition mentions (l : list pyval) (field : string) : Prop :=
  existsb (is_str field) l = true.

End Props.

(** ** Properties *)

Import Py Db App Props.

(** *** The builtins on some inputs *)

Lemma int_examples :
  int (PStr " 42 ") = inr 42
  /\ int (PStr "1_000") = inr 1000
  /\ int (PStr "-7") = inr (-7)
  /\ int (PStr (String "028" "5")) = inl ValueError
  /\ int (PStr "2.5") = inl ValueError
  /\ match int (PStr (string_of_list_ascii (repeat "1"%char 4300))) with
     | inr _ => True
     | inl _ => False
     end
  /\ int (PStr (string_of_list_ascii (repeat "1"%char 4301))) = inl ValueError
  /\ int (PFloat two_and_a_half) = inr 2
  /\ int (PFloat (S754_finite true 5629499534213120 (-51))) = inr (-2)
  /\ int (PFloat (S754_infinity false)) = inl OverflowError
  /\ int (PFloat S754_nan) = inl ValueError
  /\ int PNone = inl TypeError.
Proof. vm_compute. repeat split. Qed.

Lemma repr_float_examples :
  valid_binary 53 1024 two_and_a_half = true
  /\ valid_binary 53 1024 one_tenth = true
  /\ valid_binary 53 1024 ten_to_the_16 = true
  /\ repr (PFloat two_and_a_half) = "2.5"
  /\ repr (PFloat one_tenth) = "0.1"
  /\ repr (PFloat ten_to_the_16) = "1e+16"
  /\ repr (PFloat (S754_finite false 1 (-1074))) = "5e-324"
  /\ repr (PFloat (S754_finite true 4503599627370496 (-52))) = "-1.0"
  /\ repr (PFloat (S754_zero true)) = "-0.0"
  /\ str (PList [PFloat (S754_infinity false); PFloat S754_nan]) = "[inf, nan]".
Proof. vm_compute. repeat split. Qed.

(** *** Seat lists: join and split *)

Lemma map_str_seat_list (seats : list string) : map str (map PStr seats) = seats.
Proof.
  induction seats as [|s seats IH]; simpl; [reflexivity | now rewrite IH].
Qed.

Lemma split_comma_free (s : string) : comma_free s -> split "," s = [s].
Proof.
  unfold comma_free. induction s as [|c s IH]; simpl; [reflexivity|].
  intros H. apply orb_false_iff in H as [Hc Hs].
  rewrite Hc, (IH Hs). reflexivity.
Qed.

Lemma split_app_comma (s t : string) :
  comma_free s -> split "," (s ++ String "," t) = s :: split "," t.
Proof.
  unfold comma_free. induction s as [|c s IH]; simpl; [reflexivity|].
  intros H. apply orb_false_iff in H as [Hc Hs].
  rewrite Hc, (IH Hs). reflexivity.
Qed.

(** The law on plain join and split holds for every non-empty sequence. *)
Lemma split_join (seats : list string) :
  seats <> [] -> Forall comma_free seats -> split "," (join "," seats) = seats.
Proof.
  unfold join. induction seats as [|s seats IH]; [congruence|].
  intros _ H. inversion H as [|? ? Hs Hrest]; subst.
  destruct seats as [|s' seats].
  - simpl. now apply split_comma_free.
  - change (String.concat "," (s :: s' :: seats))
      with (s ++ String "," (String.concat "," (s' :: seats))).
    rewrite (split_app_comma _ _ Hs), IH; [reflexivity | congruence | assumption].
Qed.

Lemma append_empty (s t : string) : (s ++ t)%string = "" -> s = "".
Proof. destruct s; simpl; [reflexivity | discriminate]. Qed.

(** Only the empty sequence and the sequence of one empty string are joined
    to the empty text. *)
Lemma join_empty (seats : list string) :
  join "," seats = "" -> seats = [] \/ seats = [""].
Proof.
  unfold join. destruct seats as [|s [|s' seats]]; simpl; intros H.
  - now left.
  - right. now subst.
  - pose proof (append_empty _ _ H) as Hs. subst s. simpl in H. discriminate.
Qed.

(** Line 96 on a payload whose [selected_seats] is a sequence of strings. *)
Lemma seats_str_seat_list (data : pyval) (seats : list string) :
  getitem data "selected_seats" = inr (seat_list seats) ->
  seats_str data = inr (join "," seats).
Proof.
  unfold seats_str, seat_list. intros ->.
  destruct seats as [|s seats]; [reflexivity|].
  change (@inr exn string (join "," (map str (map PStr (s :: seats))))
          = inr (join "," (s :: seats))).
  now rewrite map_str_seat_list.
Qed.

Lemma stored_seats_join (seats : list string) : stored_seats seats = inr (join "," seats).
Proof. unfold stored_seats. now apply seats_str_seat_list. Qed.

Lemma split_seats_nonempty (text : string) :
  text <> "" -> split_seats (Some text) = split "," text.
Proof.
  intros H. unfold split_seats.
  destruct (String.eqb_spec text ""); [contradiction | reflexivity].
Qed.

(** Line 135 undoes line 96, except on the sequence of one empty string. *)
Lemma split_seats_join (seats : list string) :
  Forall comma_free seats ->
  seats <> [""] ->
  split_seats (Some (join "," seats)) = seats.
Proof.
  intros Hfree Hne.
  destruct seats as [|s seats]; [reflexivity|].
  rewrite split_seats_nonempty.
  - apply split_join; [discriminate | assumption].
  - intros H. apply join_empty in H as [H | H]; [discriminate | contradiction].
Qed.

(** C2, as stated, fails for the sequence of one empty string: it is stored
    as the empty text, which [get_bookings] lists as the empty sequence. *)
Lemma seats_round_trip_fails_on_empty_seat :
  [""] <> ([] : list string) /\ Forall comma_free [""] /\ ~ seats_round_trip [""].
Proof.
  split; [discriminate|]. split; [repeat constructor|].
  intros [text [Hs Hl]]. rewrite stored_seats_join in Hs.
  injection Hs as <-. discriminate Hl.
Qed.

(** C2 (amended): every sequence of comma-free seat strings other than the
    one made of a single empty string is stored by [add_booking] and listed
    by [get_bookings] as the same sequence; the empty sequence is stored as
    the empty text and listed as the empty sequence. *)
Theorem seats_round_trip_except_empty_seat (seats : list string) :
  Forall comma_free seats ->
  seats <> [""] ->
  seats_round_trip seats
  /\ stored_seats [] = inr ""
  /\ split_seats (Some "") = [].
Proof.
  intros Hfree Hne. split; [|split; reflexivity].
  exists (join "," seats). split; [apply stored_seats_join|].
  now apply split_seats_join.
Qed.

Lemma seats_round_trip_except_empty_seat_witness :
  seats_round_trip ["A1"; "A2"] /\ stored_seats [] = inr "" /\ split_seats (Some "") = [].
Proof.
  apply (seats_round_trip_except_empty_seat ["A1"; "A2"]).
  - repeat constructor.
  - discriminate.
Defined.

(** *** Validation of the payload *)

Lemma first_missing_found (items : list (string * pyval)) (pre post : list string)
    (field : string) :
  Forall (present items) pre ->
  absent items field ->
  first_missing (pre ++ field :: post) (PDict items) = inr (Some field).
Proof.
  unfold present, absent. intros Hpre Habs.
  induction Hpre as [|f pre Hf _ IH]; simpl.
  - now rewrite Habs.
  - destruct (lookup f items); [assumption | contradiction].
Qed.

Lemma first_missing_none (items : list (string * pyval)) (fields : list string) :
  Forall (present items) fields ->
  first_missing fields (PDict items) = inr None.
Proof.
  unfold present. induction 1 as [|f fields Hf _ IH]; simpl; [reflexivity|].
  destruct (lookup f items); [assumption | contradiction].
Qed.

Lemma some_absent_first_absent (items : list (string * pyval)) (fields : list string) :
  Exists (absent items) fields ->
  exists pre field post,
    fields = (pre ++ field :: post)%list /\ Forall (present items) pre /\ absent items field.
Proof.
  induction fields as [|f fields IH]; intros H; [inversion H|].
  destruct (lookup f items) as [v|] eqn:Hf.
  - inversion H as [? ? Habs | ? ? Hrest]; subst.
    + unfold absent in Habs. congruence.
    + destruct (IH Hrest) as (pre & field & post & -> & Hpre & Habs).
      exists (f :: pre), field, post. repeat split; [|assumption].
      constructor; [unfold present; congruence | assumption].
  - exists [], f, fields. repeat split; [constructor | assumption].
Qed.

(** What [add_booking] does with a JSON object that lacks a required key:
    one line printed, the 400 response, nothing else. *)
Lemma add_booking_missing (d : Driver) (items : list (string * pyval)) (w : World)
    (field : string) :
  first_absent items field ->
  add_booking d (PDict items) w
  = (Return (missing_field field),
     write_line ("Received booking data: " ++ str (PDict items)) w).
Proof.
  intros (pre & post & Hreq & Hpre & Habs).
  unfold add_booking, call, add_booking_body, bind, print, on_world, lift.
  cbn [world conn cursor]. rewrite Hreq, (first_missing_found _ _ _ _ Hpre Habs).
  reflexivity.
Qed.

(** *** Running a handler symbolically *)

Ltac unfold_handlers :=
  unfold add_booking, get_bookings, health_check, create_table, call,
    add_booking_body, add_booking_try, get_bookings_body, health_check_body,
    create_table_body, make_values, release, close_cursor_if_bound,
    close_conn_if_open, cursor_of, get_db_connection, connect, conn_cursor,
    cursor_execute, conn_commit, cursor_fetchall, conn_is_connected,
    cursor_close, conn_close, driver_call, try_finally, try_except,
    from_driver, bind, ret, raise, lift, print, on_world, the_world,
    assign_conn, assign_cursor, mysql_error', mysql_error, any_exception in *.

(** Case analysis on the innermost scrutinee the goal is stuck on. *)
Ltac break_match :=
  match goal with
  | |- context [match ?x with _ => _ end] =>
      lazymatch x with
      | context [match _ with _ => _ end] => fail
      | _ => destruct x eqn:?
      end
  end.

Ltac break_all := repeat (break_match; cbn in * ).

(** Kept folded while a handler is run. *)
#[local] Arguments str : simpl never.
#[local] Arguments repr : simpl never.
#[local] Arguments run_commit : simpl never.

(** A statement touches the table and the cursor, never the resource
    counters. *)
Lemma run_statement_counters (d : Driver) (st : Statement) (w w' : World) :
  run_statement d st w = inr w' ->
  open_conns w' = open_conns w /\ open_cursors w' = open_cursors w.
Proof.
  unfold run_statement. intros H.
  destruct (execute_raises d st); [discriminate|].
  destruct st, (table w); inversion H; subst; cbn; auto.
Qed.

Lemma run_commit_open_conns (w : World) : open_conns (run_commit w) = open_conns w.
Proof. unfold run_commit. now destruct (table w). Qed.

Lemma run_commit_open_cursors (w : World) : open_cursors (run_commit w) = open_cursors w.
Proof. unfold run_commit. now destruct (table w). Qed.

Ltac use_counters :=
  repeat match goal with
         | H : run_statement _ _ _ = inr _ |- _ =>
             apply run_statement_counters in H; cbn in H; destruct H
         end;
  rewrite ?run_commit_open_conns, ?run_commit_open_cursors; cbn.

(** C9: whichever way [add_booking], [get_bookings] and [health_check] end
    (a response, a handled store error, an exception that propagates),
    every connection and every cursor the handler opened has been closed. *)
Theorem handlers_release_what_they_open (d : Driver) (data : pyval) (w : World) :
  released w (snd (add_booking d data w))
  /\ released w (snd (get_bookings d w))
  /\ released w (snd (health_check d w)).
Proof.
  unfold released. repeat split; unfold_handlers; cbn; break_all; use_counters; lia.
Qed.

(** C10: a JSON object that lacks a required key is answered with the 400
    response before the store is touched: no driver call is made (so no
    connection is attempted and no statement runs) and the table, the open
    transaction and the id counter are as before. *)
Theorem missing_field_before_any_store_access
    (d : Driver) (items : list (string * pyval)) (w : World) :
  Exists (absent items) required_fields ->
  exists field w',
    add_booking d (PDict items) w = (Return (missing_field field), w')
    /\ In field required_fields
    /\ absent items field
    /\ calls w' = calls w
    /\ table w' = table w
    /\ uncommitted w' = uncommitted w
    /\ auto_increment w' = auto_increment w
    /\ open_conns w' = open_conns w
    /\ open_cursors w' = open_cursors w.
Proof.
  intros H.
  destruct (some_absent_first_absent _ _ H) as (pre & field & post & Hreq & Hpre & Habs).
  exists field. eexists. split.
  - apply add_booking_missing. now exists pre, post.
  - repeat split; try reflexivity; try assumption.
    rewrite Hreq. apply in_or_app. right. now left.
Qed.

Lemma missing_field_before_any_store_access_witness :
  exists field w',
    add_booking (unreachable "down") (PDict [("name", PStr "A")]) empty_store
    = (Return (missing_field field), w')
    /\ In field required_fields
    /\ absent [("name", PStr "A")] field
    /\ calls w' = calls empty_store
    /\ table w' = table empty_store
    /\ uncommitted w' = uncommitted empty_store
    /\ auto_increment w' = auto_increment empty_store
    /\ open_conns w' = open_conns empty_store
    /\ open_cursors w' = open_cursors empty_store.
Proof.
  apply (missing_field_before_any_store_access (unreachable "down")
           [("name", PStr "A")] empty_store).
  apply Exists_cons_tl, Exists_cons_hd. reflexivity.
Defined.

(** Once every required key is there, whatever the values, the handler goes
    on to the store: it answers 201 or 500, or raises. *)
Lemma add_booking_validated (d : Driver) (items : list (string * pyval)) (w : World)
    (r : Response) :
  Forall (present items) required_fields ->
  fst (add_booking d (PDict items) w) = Return r ->
  status r = 201 \/ status r = 500.
Proof.
  intros Hall.
  unfold add_booking, call, add_booking_body, bind, print, on_world, lift.
  cbn [world conn cursor]. rewrite (first_missing_none _ _ Hall).
  unfold_handlers; cbn; break_all; intros H; inversion H; subst; cbn; auto.
Qed.

(** C3: a JSON object that lacks a required key is answered 400 with
    [Missing field: <field>], where [<field>] is the first key of the fixed
    order that the object lacks; only the presence of the keys is checked,
    so an object that has all nine keys, whatever their values (null
    included), is never answered 400. *)
Theorem missing_field_names_first_absent_key
    (d : Driver) (items : list (string * pyval)) (w : World) :
  (Exists (absent items) required_fields ->
   exists field,
     first_absent items field
     /\ fst (add_booking d (PDict items) w) = Return (missing_field field))
  /\ (forall field,
        first_absent items field ->
        fst (add_booking d (PDict items) w) = Return (missing_field field))
  /\ (Forall (present items) required_fields ->
      forall r, fst (add_booking d (PDict items) w) = Return r -> status r <> 400).
Proof.
  assert (Hfirst : forall field, first_absent items field ->
            fst (add_booking d (PDict items) w) = Return (missing_field field)).
  { intros field H. now rewrite (add_booking_missing d items w field H). }
  split; [|split].
  - intros H.
    destruct (some_absent_first_absent _ _ H) as (pre & field & post & Hreq & Hpre & Habs).
    assert (Hf : first_absent items field) by now exists pre, post.
    exists field. split; [assumption | now apply Hfirst].
  - exact Hfirst.
  - intros Hall r Hr.
    destruct (add_booking_validated d items w r Hall Hr) as [H | H]; rewrite H; discriminate.
Qed.

Lemma missing_field_names_first_absent_key_witness :
  fst (add_booking steady
         (PDict [("name", PStr "A"); ("selected_seats", PList [])]) empty_store)
  = Return (missing_field "phone_no")
  /\ (forall r,
        fst (add_booking steady
               (PDict (map (fun field => (field, PNone)) required_fields)) empty_store)
        = Return r ->
        status r <> 400).
Proof.
  split.
  - apply (proj1 (proj2 (missing_field_names_first_absent_key steady
             [("name", PStr "A"); ("selected_seats", PList [])] empty_store))).
    exists ["name"], (skipn 2 required_fields).
    split; [reflexivity|]. split; [|reflexivity].
    repeat constructor. discriminate.
  - apply (proj2 (proj2 (missing_field_names_first_absent_key steady
             (map (fun field => (field, PNone)) required_fields) empty_store))).
    repeat constructor; discriminate.
Defined.

(** *** ORDER BY created_at DESC *)

Lemma insert_desc_perm (tie : Booking -> Booking -> bool) (a : Booking) (l : list Booking) :
  Permutation (a :: l) (insert_desc tie a l).
Proof.
  induction l as [|b l IH]; simpl; [reflexivity|].
  destruct (goes_before tie a b); [reflexivity|].
  rewrite perm_swap. now constructor.
Qed.

Lemma order_by_perm (tie : Booking -> Booking -> bool) (l : list Booking) :
  Permutation l (order_by_created_at_desc tie l).
Proof.
  induction l as [|a l IH]; simpl; [constructor|].
  rewrite <- insert_desc_perm. now constructor.
Qed.

Lemma goes_before_true (tie : Booking -> Booking -> bool) (a b : Booking) :
  goes_before tie a b = true -> created_at b <= created_at a.
Proof. unfold goes_before. lia. Qed.

Lemma goes_before_false (tie : Booking -> Booking -> bool) (a b : Booking) :
  goes_before tie a b = false -> created_at a <= created_at b.
Proof. unfold goes_before. lia. Qed.

Lemma insert_desc_sorted (tie : Booking -> Booking -> bool) (a : Booking) (l : list Booking) :
  newest_first l -> newest_first (insert_desc tie a l).
Proof.
  unfold newest_first. induction 1 as [|b l Hl IH Hb]; simpl.
  - repeat constructor.
  - destruct (goes_before tie a b) eqn:Hab.
    + apply goes_before_true in Hab.
      constructor; [now constructor|].
      constructor; [assumption|].
      eapply Forall_impl; [|exact Hb]. cbv beta. intros c Hc. lia.
    + apply goes_before_false in Hab.
      constructor; [assumption|].
      eapply Permutation_Forall; [apply insert_desc_perm|].
      now constructor.
Qed.

Lemma order_by_sorted (tie : Booking -> Booking -> bool) (l : list Booking) :
  newest_first (order_by_created_at_desc tie l).
Proof.
  induction l as [|a l IH]; simpl; [constructor | now apply insert_desc_sorted].
Qed.

Lemma newest_first_with_seat_list (l : list Booking) :
  newest_first l -> newest_first (map with_seat_list l).
Proof.
  unfold newest_first. induction 1 as [|b l Hl IH Hb]; simpl; constructor; [assumption|].
  apply Forall_map. exact Hb.
Qed.

(** In a list that is newest first, a strictly newer row comes first. *)
Lemma newer_precedes {S : Type} (l : list (Row S)) (x y : Row S) :
  newest_first l -> In x l -> In y l -> created_at y < created_at x -> precedes x y l.
Proof.
  unfold newest_first, precedes. induction 1 as [|h t Ht IH Hh]; intros Hx Hy Hlt.
  - destruct Hx.
  - assert (Hyt : h = x -> In y t).
    { intros ->. destruct Hy as [-> | Hy]; [lia | assumption]. }
    destruct Hx as [-> | Hx].
    + destruct (in_split _ _ (Hyt eq_refl)) as (l2 & l3 & ->).
      now exists [], l2, l3.
    + destruct Hy as [-> | Hy].
      * rewrite Forall_forall in Hh. specialize (Hh _ Hx). simpl in Hh. lia.
      * destruct (IH Hx Hy Hlt) as (l1 & l2 & l3 & ->).
        now exists (h :: l1), l2, l3.
Qed.

Lemma chronological_split (pre mid post : list Booking) (a b : Booking) :
  chronological (pre ++ a :: mid ++ b :: post) -> created_at a <= created_at b.
Proof.
  unfold chronological. induction pre as [|p pre IH]; simpl; intros H.
  - apply StronglySorted_inv in H as [_ H]. rewrite Forall_forall in H.
    apply H. apply in_or_app. right. now left.
  - apply StronglySorted_inv in H as [H _]. now apply IH.
Qed.

(** [get_bookings] against a driver that does not fail. *)
Lemma get_bookings_lists (d : Driver) (w : World) (rows : list Booking) :
  lists_rows d ->
  table w = Some rows ->
  exists w',
    get_bookings d w
    = (Return (mkResponse
                 (BookingsJson (map with_seat_list (order_by_created_at_desc (tie d) rows)))
                 200), w')
    /\ table w' = Some rows
    /\ now w' = now w
    /\ uncommitted w' = [].
Proof.
  intros (Hc & Hcur & Hex & Hf) Ht.
  unfold_handlers. unfold run_statement. cbn.
  rewrite Hc. cbn. rewrite Hcur. cbn. rewrite Hex, Ht. cbn. rewrite Hf. cbn.
  eexists. repeat split. exact Ht.
Qed.

Lemma shows_with_seat_list (b : Booking) : shows (with_seat_list b) b.
Proof.
  unfold shows, with_seat_list. cbn -[split]. repeat split.
  destruct (selected_seats b) as [[|c s]|]; reflexivity.
Qed.

Lemma listing_shows (l : list Booking) : Forall2 shows (map with_seat_list l) l.
Proof.
  induction l as [|b l IH]; simpl; constructor; [apply shows_with_seat_list | exact IH].
Qed.

(** C4: against a store that answers, [get_bookings] returns 200 with all
    the stored rows, newest first.  The listing shows, row by row, a
    rearrangement of the stored rows (each with its id, its columns, its
    timestamp and its seat text cut at the commas), no row of it is older
    than a row after it, and a row with a later [created_at] is listed
    before a row with an earlier one.  In particular, in a store between two
    requests, of two bookings inserted one after the other with different
    timestamps the later one is listed first.  Nothing is said of rows with
    equal timestamps. *)
Theorem get_bookings_newest_first (d : Driver) (w : World) (rows : list Booking) :
  lists_rows d ->
  table w = Some rows ->
  exists listing ordered w',
    get_bookings d w = (Return (mkResponse (BookingsJson listing) 200), w')
    /\ Permutation rows ordered
    /\ Forall2 shows listing ordered
    /\ newest_first listing
    /\ (forall a b,
          In a rows -> In b rows -> created_at a < created_at b ->
          exists ra rb, shows ra a /\ shows rb b /\ precedes rb ra listing)
    /\ (forall pre a mid b post,
          settled w ->
          rows = (pre ++ a :: mid ++ b :: post)%list ->
          created_at a <> created_at b ->
          exists ra rb, shows ra a /\ shows rb b /\ precedes rb ra listing).
Proof.
  intros Hd Ht.
  destruct (get_bookings_lists d w rows Hd Ht) as (w' & Hrun & _).
  exists (map with_seat_list (order_by_created_at_desc (tie d) rows)),
         (order_by_created_at_desc (tie d) rows), w'.
  assert (Hperm : Permutation rows (order_by_created_at_desc (tie d) rows))
    by apply order_by_perm.
  assert (Hsorted : newest_first (map with_seat_list (order_by_created_at_desc (tie d) rows))).
  { apply newest_first_with_seat_list, order_by_sorted. }
  assert (Hnewer : forall a b,
            In a rows -> In b rows -> created_at a < created_at b ->
            exists ra rb,
              shows ra a /\ shows rb b
              /\ precedes rb ra (map with_seat_list (order_by_created_at_desc (tie d) rows))).
  { intros a b Ha Hb Hlt. exists (with_seat_list a), (with_seat_list b).
    split; [apply shows_with_seat_list|]. split; [apply shows_with_seat_list|].
    apply newer_precedes; [assumption | | | exact Hlt].
    - apply in_map. eapply Permutation_in; [exact Hperm | assumption].
    - apply in_map. eapply Permutation_in; [exact Hperm | assumption]. }
  split; [exact Hrun|]. split; [exact Hperm|]. split; [apply listing_shows|].
  split; [exact Hsorted|]. split; [exact Hnewer|].
  intros pre a mid b post [_ Hs] -> Hne.
  destruct (Hs _ Ht) as [Hchrono _].
  apply chronological_split in Hchrono.
  apply Hnewer.
  - apply in_or_app. right. now left.
  - apply in_or_app. right. right. apply in_or_app. right. now left.
  - lia.
Qed.

Lemma get_bookings_newest_first_witness :
  exists listing ordered w',
    get_bookings steady two_bookings = (Return (mkResponse (BookingsJson listing) 200), w')
    /\ Permutation [stored_booking 1 0 "A1,A2"; stored_booking 2 5 "B7"] ordered
    /\ Forall2 shows listing ordered
    /\ newest_first listing
    /\ (forall a b,
          In a [stored_booking 1 0 "A1,A2"; stored_booking 2 5 "B7"] ->
          In b [stored_booking 1 0 "A1,A2"; stored_booking 2 5 "B7"] ->
          created_at a < created_at b ->
          exists ra rb, shows ra a /\ shows rb b /\ precedes rb ra listing)
    /\ (forall pre a mid b post,
          settled two_bookings ->
          [stored_booking 1 0 "A1,A2"; stored_booking 2 5 "B7"]
          = (pre ++ a :: mid ++ b :: post)%list ->
          created_at a <> created_at b ->
          exists ra rb, shows ra a /\ shows rb b /\ precedes rb ra listing).
Proof.
  apply (get_bookings_newest_first steady two_bookings).
  - repeat split; reflexivity.
  - reflexivity.
Defined.

(** *** The store between two requests *)

Lemma run_insert_inv (d : Driver) (v : Values) (w w' : World) :
  run_statement d (InsertBooking v) w = inr w' ->
  exists rows,
    table w = Some rows
    /\ w' = set_lastrowid (PInt (auto_increment w))
              (set_auto_increment (auto_increment w + 1)
                 (set_uncommitted (uncommitted w ++ [new_row v w])%list w)).
Proof.
  unfold run_statement. destruct (execute_raises d _); [discriminate|].
  destruct (table w) as [rows|]; [|discriminate].
  intros [= <-]. now exists rows.
Qed.

Lemma chronological_snoc (rows : list Booking) (b : Booking) :
  chronological rows ->
  Forall (fun x => created_at x <= created_at b) rows ->
  chronological (rows ++ [b]).
Proof.
  unfold chronological. induction 1 as [|a rows Hrows IH Ha]; intros Hb; simpl.
  - repeat constructor.
  - apply Forall_cons_iff in Hb as [Hab Hb].
    constructor; [now apply IH|].
    apply Forall_app. split; [assumption | now repeat constructor].
Qed.

Lemma settled_empty_store : settled empty_store.
Proof.
  split; [reflexivity|]. intros rows [= <-]. split; constructor.
Qed.

Lemma settled_two_bookings : settled two_bookings.
Proof.
  split; [reflexivity|]. intros rows [= <-].
  split; repeat constructor; cbn; lia.
Qed.

Lemma settled_tick (dt : Z) (w : World) : settled w -> settled (tick dt w).
Proof.
  intros [Hu Hs]. split; [exact Hu|]. cbn. intros rows Ht.
  destruct (Hs rows Ht) as [Hc Hn]. split; [assumption|].
  eapply Forall_impl; [|exact Hn]. cbv beta. intros x Hx. lia.
Qed.

Lemma run_select_inv (d : Driver) (w w' : World) :
  run_statement d SelectOrderByCreatedAtDesc w = inr w' ->
  exists rows,
    table w = Some rows /\ w' = set_fetched (order_by_created_at_desc (tie d) rows) w.
Proof.
  unfold run_statement. destruct (execute_raises d _); [discriminate|].
  destruct (table w) as [rows|]; [|discriminate].
  intros [= <-]. now exists rows.
Qed.

Lemma run_create_inv (d : Driver) (w w' : World) :
  run_statement d CreateTableIfNotExists w = inr w' ->
  (table w = None /\ w' = set_table (Some []) w) \/ (table w <> None /\ w' = w).
Proof.
  unfold run_statement. destruct (execute_raises d _); [discriminate|].
  destruct (table w) as [rows|]; intros [= <-]; [right | left]; split; congruence.
Qed.

Ltac invert_statements :=
  repeat match goal with
         | H : run_statement _ (InsertBooking _) _ = inr _ |- _ =>
             apply run_insert_inv in H; cbn in H; destruct H as (? & ? & ->)
         | H : run_statement _ SelectOrderByCreatedAtDesc _ = inr _ |- _ =>
             apply run_select_inv in H; cbn in H; destruct H as (? & ? & ->)
         | H : run_statement _ CreateTableIfNotExists _ = inr _ |- _ =>
             apply run_create_inv in H; cbn in H; destruct H as [[? ->] | [? ->]]
         end.

(** What a handler does to the clock, the open transaction and the table. *)
Lemma add_booking_now (d : Driver) (data : pyval) (w : World) :
  now (snd (add_booking d data w)) = now w.
Proof.
  unfold_handlers. cbn. repeat (break_match; cbn). all: invert_statements.
  all: try reflexivity.
  all: unfold run_commit; cbn; break_all; reflexivity.
Qed.

Lemma add_booking_uncommitted (d : Driver) (data : pyval) (w : World) :
  uncommitted w = [] -> uncommitted (snd (add_booking d data w)) = [].
Proof.
  intros Hu. unfold_handlers. cbn. repeat (break_match; cbn).
  all: try reflexivity; try assumption.
Qed.

Lemma add_booking_table (d : Driver) (data : pyval) (w : World) :
  table (snd (add_booking d data w)) = table w
  \/ exists rows b,
       table w = Some rows
       /\ created_at b = now w
       /\ table (snd (add_booking d data w)) = Some (rows ++ uncommitted w ++ [b])%list.
Proof.
  unfold_handlers. cbn. repeat (break_match; cbn). all: invert_statements.
  all: try (left; reflexivity).
  right. unfold run_commit. cbn.
  match goal with H : table w = Some _ |- _ => rewrite H end. cbn.
  eexists. eexists. split; [reflexivity|]. split; [|reflexivity]. reflexivity.
Qed.

Lemma get_bookings_store (d : Driver) (w : World) :
  now (snd (get_bookings d w)) = now w
  /\ table (snd (get_bookings d w)) = table w
  /\ (uncommitted w = [] -> uncommitted (snd (get_bookings d w)) = []).
Proof.
  repeat split; [| |intros Hu]; unfold_handlers; cbn; repeat (break_match; cbn).
  all: invert_statements; try reflexivity; try assumption.
Qed.

Lemma health_check_store (d : Driver) (w : World) :
  now (snd (health_check d w)) = now w
  /\ table (snd (health_check d w)) = table w
  /\ (uncommitted w = [] -> uncommitted (snd (health_check d w)) = []).
Proof.
  repeat split; [| |intros Hu]; unfold_handlers; cbn; repeat (break_match; cbn).
  all: try reflexivity; try assumption.
Qed.

(** Every handler leaves the store settled: [settled] holds between any two
    requests of a service started on an empty table. *)
Lemma settled_add_booking (d : Driver) (data : pyval) (w : World) :
  settled w -> settled (snd (add_booking d data w)).
Proof.
  intros [Hu Hs]. split; [now apply add_booking_uncommitted|].
  rewrite add_booking_now. intros rows' Ht'.
  destruct (add_booking_table d data w) as [Ht | (rows & b & Ht & Hb & Hgrown)].
  - apply Hs. congruence.
  - rewrite Hgrown, Hu in Ht'. injection Ht' as <-. simpl.
    destruct (Hs _ Ht) as [Hc Hn]. split.
    + apply chronological_snoc; [assumption|].
      eapply Forall_impl; [|exact Hn]. cbv beta. intros x Hx. lia.
    + apply Forall_app. split; [assumption|]. repeat constructor. lia.
Qed.

Lemma settled_get_bookings (d : Driver) (w : World) :
  settled w -> settled (snd (get_bookings d w)).
Proof.
  intros [Hu Hs]. destruct (get_bookings_store d w) as (Hn & Ht & Hu').
  split; [now apply Hu'|]. rewrite Hn, Ht. exact Hs.
Qed.

Lemma settled_health_check (d : Driver) (w : World) :
  settled w -> settled (snd (health_check d w)).
Proof.
  intros [Hu Hs]. destruct (health_check_store d w) as (Hn & Ht & Hu').
  split; [now apply Hu'|]. rewrite Hn, Ht. exact Hs.
Qed.

(** *** POST /book, then GET /bookings *)

Ltac same_reads :=
  repeat match goal with
         | H : Some _ = Some _ |- _ => injection H as H; try subst
         | H : inr _ = inr _ |- _ => injection H as H; try subst
         | H1 : ?x = inr ?a, H2 : ?x = inr ?b |- _ =>
             rewrite H1 in H2; injection H2 as H2; try subst
         end.

(** A payload the handler can turn into [values], against a store that takes
    them: the 201 response carries the id the store assigned, and the row is
    appended to the table. *)
Lemma add_booking_accepted (d : Driver) (w : World) (rows : list Booking)
    (items : list (string * pyval)) (values : Values) :
  payload_values items values ->
  accepts d values ->
  table w = Some rows ->
  uncommitted w = [] ->
  fst (add_booking d (PDict items) w) = Return (booking_added (auto_increment w) (PDict items))
  /\ table (snd (add_booking d (PDict items) w)) = Some (rows ++ [new_row values w])%list.
Proof.
  destruct values as [v1 v2 v3 v4 v5 v6 n v8 s].
  intros (H1 & H2 & H3 & H4 & H5 & H6 & (passengers & H7 & Hn) & H8 & (seats & H9) & Hs)
         (Hc & Hcur & Hex & Hcommit) Ht Hu.
  cbn in H1, H2, H3, H4, H5, H6, Hn, H8, Hs.
  split; unfold_handlers; cbn; break_all; try congruence.
  all: same_reads.
  all: try match goal with
       | H : run_statement _ _ _ = inl _ |- _ =>
           unfold run_statement in H; rewrite Hex in H; cbn in H; rewrite Ht in H; discriminate H
       end.
  all: invert_statements.
  all: unfold run_commit; cbn; rewrite Ht; cbn; try rewrite Hu; reflexivity.
Qed.

Lemma payload_values_seats (items : list (string * pyval)) (values : Values)
    (seats : list string) :
  payload_values items values ->
  lookup "selected_seats" items = Some (seat_list seats) ->
  v_selected_seats values = join "," seats.
Proof.
  intros (_ & _ & _ & _ & _ & _ & _ & _ & _ & Hs) Hl.
  rewrite (seats_str_seat_list (PDict items) seats) in Hs.
  - now injection Hs as <-.
  - unfold getitem. now rewrite Hl.
Qed.

(** C1, as stated, fails for a payload whose seats are one empty string:
    the booking is accepted and listed, but the listing has one row, with no
    seats, so no row of it has the sequence of seats of the input. *)
Lemma listing_loses_the_empty_seat :
  fst (add_booking steady empty_seat_booking empty_store)
  = Return (booking_added 1 empty_seat_booking)
  /\ exists listing,
       fst (get_bookings steady (snd (add_booking steady empty_seat_booking empty_store)))
       = Return (mkResponse (BookingsJson listing) 200)
       /\ ~ (exists row, In row listing /\ selected_seats row = [""]).
Proof.
  split; [vm_compute; reflexivity|].
  exists [listed 1 0 (mkJourney "A" "123" "X" "Y" "2024-01-01" "10:00" 2 "AC" [])].
  split; [vm_compute; reflexivity|].
  intros (row & [<- | []] & H). discriminate H.
Qed.

(** C1 (amended): take a payload with the nine keys whose seven text fields
    (name, phone_no, from_station, to_station, travel_date, travel_time and
    class) are strings, whose passenger count [int] accepts (an integer, a
    boolean, a finite float, or a string holding a decimal integer) and
    whose seats are comma-free strings, other than the single empty string;
    take a store
    that is reachable, holds the table and accepts the INSERT and the
    commit.  Then POST /book answers 201 with the message, the id assigned
    by the store and the payload itself, and a GET /bookings that follows
    (the store still answering) lists a row with that id, the text fields of
    the payload, the passenger count as an integer and the same sequence of
    seats. *)
Theorem booking_is_listed (d d' : Driver) (w : World) (rows : list Booking)
    (items : list (string * pyval)) (j : Journey) :
  payload_values items (values_of j) ->
  lookup "selected_seats" items = Some (seat_list (j_selected_seats j)) ->
  Forall comma_free (j_selected_seats j) ->
  j_selected_seats j <> [""] ->
  accepts d (values_of j) ->
  lists_rows d' ->
  table w = Some rows ->
  uncommitted w = [] ->
  exists w1 listing w2,
    add_booking d (PDict items) w
    = (Return (booking_added (auto_increment w) (PDict items)), w1)
    /\ get_bookings d' w1 = (Return (mkResponse (BookingsJson listing) 200), w2)
    /\ In (listed (auto_increment w) (now w) j) listing.
Proof.
  intros Hvalues Hseats Hfree Hne Hd Hd' Ht Hu.
  destruct (add_booking_accepted d w rows items (values_of j) Hvalues Hd Ht Hu)
    as [Hresp Htable].
  destruct (get_bookings_lists d' _ _ Hd' Htable) as (w2 & Hlist & _).
  exists (snd (add_booking d (PDict items) w)).
  eexists. exists w2. split; [|split; [exact Hlist|]].
  - rewrite (surjective_pairing (add_booking d (PDict items) w)) at 1.
    now rewrite Hresp.
  - replace (listed (auto_increment w) (now w) j)
      with (with_seat_list (new_row (values_of j) w)).
    + apply in_map. eapply Permutation_in; [apply order_by_perm|].
      apply in_or_app. right. now left.
    + unfold with_seat_list, new_row, listed, values_of. cbn -[split_seats join].
      now rewrite (split_seats_join _ Hfree Hne).
Qed.

Lemma booking_is_listed_witness :
  exists w1 listing w2,
    add_booking steady
      (PDict (booking_payload (PFloat two_and_a_half) (seat_list ["A1"; "A2"]))) empty_store
    = (Return (booking_added 1
                 (PDict (booking_payload (PFloat two_and_a_half) (seat_list ["A1"; "A2"])))),
       w1)
    /\ get_bookings steady w1 = (Return (mkResponse (BookingsJson listing) 200), w2)
    /\ In (listed 1 0 example_journey) listing.
Proof.
  apply (booking_is_listed steady steady empty_store []
           (booking_payload (PFloat two_and_a_half) (seat_list ["A1"; "A2"]))
           example_journey).
  - repeat split; try reflexivity; eexists; split; reflexivity.
  - reflexivity.
  - repeat constructor.
  - discriminate.
  - repeat split; reflexivity.
  - repeat split; reflexivity.
  - reflexivity.
  - reflexivity.
Defined.

(** ** Further properties of the code *)

Ltac all_present H :=
  unfold required_fields in H;
  repeat (apply Forall_cons_iff in H as [? H]);
  unfold present in *.

Ltac same_raises :=
  repeat match goal with
         | H1 : ?x = inl ?a, H2 : ?x = inl ?b |- _ =>
             rewrite H1 in H2; injection H2 as H2; try subst
         end.

Ltac same_errors :=
  repeat match goal with
         | H : inl _ = inl _ |- _ => injection H as H; try subst
         end.

(** *** Values that cannot be built *)

Lemma int_raises (v : pyval) (e : exn) :
  int v = inl e -> e = TypeError \/ e = ValueError \/ e = OverflowError.
Proof.
  destruct v as [| b | z | x | s | l | items]; cbn; try discriminate.
  - intros [= <-]. auto.
  - destruct x; cbn; try discriminate; intros [= <-]; auto.
  - destruct (int_of_string s); [discriminate | intros [= <-]; auto].
  - intros [= <-]. auto.
  - intros [= <-]. auto.
Qed.

Lemma seats_str_raises (items : list (string * pyval)) (e : exn) :
  lookup "selected_seats" items <> None ->
  seats_str (PDict items) = inl e -> e = TypeError.
Proof.
  unfold seats_str, getitem. destruct (lookup "selected_seats" items) as [v|]; [|congruence].
  intros _. destruct (truthy v); [|discriminate].
  destruct v; cbn; congruence.
Qed.

(** X1: when all nine keys are present and connection and cursor are
    obtained, a passenger count that [int] refuses makes [add_booking] raise
    a TypeError, a ValueError or an OverflowError (the one of [int] when the
    seats could be joined; the TypeError of the seats otherwise): the
    [except] clause for driver errors does not catch it, so no JSON response
    is produced.  By then no statement has been sent, the table is as before
    and cursor and connection have been closed. *)
Theorem passenger_count_error_propagates
    (d : Driver) (items : list (string * pyval)) (w : World) (passengers : pyval) (e : exn) :
  Forall (present items) required_fields ->
  lookup "no_of_passengers" items = Some passengers ->
  int passengers = inl e ->
  connect_raises d = None ->
  cursor_raises d = None ->
  exists e',
    fst (add_booking d (PDict items) w) = Raise e'
    /\ (e' = TypeError \/ e' = ValueError \/ e' = OverflowError)
    /\ (forall s, seats_str (PDict items) = inr s -> e' = e)
    /\ raised_before_insert w (snd (add_booking d (PDict items) w))
    /\ table (snd (add_booking d (PDict items) w)) = table w
    /\ released w (snd (add_booking d (PDict items) w)).
Proof.
  intros Hall Hp He Hc Hcur.
  exists (match seats_str (PDict items) with inl e1 => e1 | inr _ => e end).
  pose proof (int_raises _ _ He) as Hclass.
  assert (Hseats : forall e1, seats_str (PDict items) = inl e1 -> e1 = TypeError).
  { intros e1. apply seats_str_raises. all_present Hall. assumption. }
  unfold raised_before_insert, released.
  unfold add_booking, call, add_booking_body, bind, print, on_world, lift.
  cbn [world conn cursor]. rewrite (first_missing_none _ _ Hall).
  all_present Hall.
  repeat split; unfold_handlers; cbn; break_all; try congruence; try lia.
  all: same_reads; try congruence.
  all: try (left; now apply Hseats).
  all: try (intros ? [= <-]).
  all: try (specialize (Hseats _ eq_refl); discriminate Hseats).
  all: same_raises; try reflexivity; try exact Hclass.
  all: destruct Hclass as [Hclass | [Hclass | Hclass]]; discriminate.
Qed.

Lemma passenger_count_error_propagates_witness :
  exists e',
    fst (add_booking steady (PDict (booking_payload (PStr "abc") (seat_list ["A1"])))
           empty_store) = Raise e'
    /\ (e' = TypeError \/ e' = ValueError \/ e' = OverflowError)
    /\ (forall s,
          seats_str (PDict (booking_payload (PStr "abc") (seat_list ["A1"]))) = inr s ->
          e' = ValueError)
    /\ raised_before_insert empty_store
         (snd (add_booking steady (PDict (booking_payload (PStr "abc") (seat_list ["A1"])))
                 empty_store))
    /\ table (snd (add_booking steady
                     (PDict (booking_payload (PStr "abc") (seat_list ["A1"]))) empty_store))
       = table empty_store
    /\ released empty_store
         (snd (add_booking steady (PDict (booking_payload (PStr "abc") (seat_list ["A1"])))
                 empty_store)).
Proof.
  apply (passenger_count_error_propagates steady
           (booking_payload (PStr "abc") (seat_list ["A1"])) empty_store (PStr "abc")
           ValueError).
  - repeat constructor; discriminate.
  - reflexivity.
  - reflexivity.
  - reflexivity.
  - reflexivity.
Defined.

(** *** create_table *)

(** X2: when the store cannot be reached, [get_db_connection] prints the
    failure and returns None, and [create_table], which does not test for
    None, raises an AttributeError that no clause catches: the call at the
    end of the module does not return.  Nothing was opened and the table is
    untouched. *)
Theorem create_table_raises_when_unreachable (d : Driver) (w : World) (msg : string) :
  connect_raises d = Some (MySQLError msg) ->
  fst (create_table d w) = Raise AttributeError
  /\ stdout (snd (create_table d w)) = ("Database connection failed: " ++ msg) :: stdout w
  /\ calls (snd (create_table d w)) = CallConnect :: calls w
  /\ table (snd (create_table d w)) = table w
  /\ released w (snd (create_table d w)).
Proof.
  intros Hc. unfold released.
  repeat split; unfold_handlers; cbn; rewrite Hc; cbn; reflexivity.
Qed.

Lemma create_table_raises_when_unreachable_witness :
  fst (create_table (unreachable "down") empty_store) = Raise AttributeError
  /\ stdout (snd (create_table (unreachable "down") empty_store))
     = ("Database connection failed: " ++ "down") :: stdout empty_store
  /\ calls (snd (create_table (unreachable "down") empty_store))
     = CallConnect :: calls empty_store
  /\ table (snd (create_table (unreachable "down") empty_store)) = table empty_store
  /\ released empty_store (snd (create_table (unreachable "down") empty_store)).
Proof.
  apply (create_table_raises_when_unreachable (unreachable "down") empty_store "down").
  reflexivity.
Defined.

(** What [run_statement] answers when the driver raises, and when it accepts
    the CREATE TABLE. *)
Lemma run_statement_raised (d : Driver) (st : Statement) (w : World) (e : driver_exn) :
  execute_raises d st = Some e -> run_statement d st w = inl e.
Proof. intros H. unfold run_statement. now rewrite H. Qed.

Lemma run_create_accepted (d : Driver) (w : World) :
  execute_raises d CreateTableIfNotExists = None ->
  run_statement d CreateTableIfNotExists w
  = inr (match table w with None => set_table (Some []) w | Some _ => w end).
Proof. intros H. unfold run_statement. rewrite H. now destruct (table w). Qed.

Lemma run_insert_accepted (d : Driver) (v : Values) (w : World) (rows : list Booking) :
  execute_raises d (InsertBooking v) = None ->
  table w = Some rows ->
  run_statement d (InsertBooking v) w
  = inr (set_lastrowid (PInt (auto_increment w))
           (set_auto_increment (auto_increment w + 1)
              (set_uncommitted (uncommitted w ++ [new_row v w])%list w))).
Proof. intros He Ht. unfold run_statement. now rewrite He, Ht. Qed.

(** X3: a driver error while the table is created (at the cursor, at the
    statement or at the commit) is printed and swallowed: [create_table]
    returns normally with cursor and connection closed, and the rows of an
    existing table are untouched. *)
Theorem create_table_swallows_driver_errors (d : Driver) (w : World) (msg : string) :
  connect_raises d = None ->
  create_rejected d msg ->
  fst (create_table d w) = Return tt
  /\ stdout (snd (create_table d w)) = (" Error creating table: " ++ msg) :: stdout w
  /\ (table (snd (create_table d w)) = table w
      \/ (table w = None /\ table (snd (create_table d w)) = Some []))
  /\ released w (snd (create_table d w)).
Proof.
  intros Hc [Hcur | [[Hcur Hex] | (Hcur & Hex & Hcommit)]]; unfold released.
  all: repeat split; unfold_handlers; cbn; break_all; try congruence; try lia.
  all: same_reads; same_raises; try congruence.
  all: try match goal with
       | H : run_statement _ _ _ = _ |- _ =>
           first [ rewrite (run_statement_raised _ _ _ _ Hex) in H
                 | rewrite (run_create_accepted _ _ Hex) in H ]
       end; try congruence.
  all: same_reads; cbn; try lia; auto.
  all: destruct (table w) eqn:?; cbn; auto; try lia.
Qed.

Lemma create_table_swallows_driver_errors_witness :
  fst (create_table (mkDriver None (Some (MySQLError "gone")) (fun _ => None) None None
                       (inr true) (MySQLError "no table") (fun _ _ => true)) empty_store)
  = Return tt
  /\ stdout (snd (create_table (mkDriver None (Some (MySQLError "gone")) (fun _ => None) None
                                  None (inr true) (MySQLError "no table") (fun _ _ => true))
                    empty_store))
     = (" Error creating table: " ++ "gone") :: stdout empty_store
  /\ (table (snd (create_table (mkDriver None (Some (MySQLError "gone")) (fun _ => None) None
                                  None (inr true) (MySQLError "no table") (fun _ _ => true))
                    empty_store)) = table empty_store
      \/ (table empty_store = None
          /\ table (snd (create_table (mkDriver None (Some (MySQLError "gone")) (fun _ => None)
                                         None None (inr true) (MySQLError "no table")
                                         (fun _ _ => true)) empty_store)) = Some []))
  /\ released empty_store
       (snd (create_table (mkDriver None (Some (MySQLError "gone")) (fun _ => None) None None
                             (inr true) (MySQLError "no table") (fun _ _ => true))
               empty_store)).
Proof.
  apply (create_table_swallows_driver_errors
           (mkDriver None (Some (MySQLError "gone")) (fun _ => None) None None
              (inr true) (MySQLError "no table") (fun _ _ => true)) empty_store "gone").
  - reflexivity.
  - left. reflexivity.
Defined.

(** [create_table] against a store that answers, between two requests. *)
Lemma create_table_creates (d : Driver) (w : World) :
  creates d ->
  uncommitted w = [] ->
  fst (create_table d w) = Return tt
  /\ table (snd (create_table d w)) = Some (rows_of w)
  /\ uncommitted (snd (create_table d w)) = []
  /\ stdout (snd (create_table d w))
     = "Table created successfully or already exists" :: stdout w.
Proof.
  intros (Hc & Hcur & Hex & Hcommit) Hu. unfold rows_of.
  destruct (table w) as [rows|] eqn:Ht.
  all: repeat split; unfold_handlers; cbn; break_all; try congruence.
  all: try match goal with
       | H : run_statement _ _ _ = _ |- _ =>
           rewrite (run_create_accepted _ _ Hex) in H; cbn in H; rewrite Ht in H
       end; try congruence.
  all: same_reads; unfold run_commit; cbn; rewrite ?Ht; cbn.
  all: rewrite ?Hu, ?app_nil_r; reflexivity.
Qed.

(** X4: table creation is idempotent.  Against a store that answers,
    [create_table] returns normally and leaves a table that holds exactly
    the rows it held before (none if there was no table); running it again
    changes nothing. *)
Theorem create_table_idempotent (d d' : Driver) (w : World) :
  creates d ->
  creates d' ->
  uncommitted w = [] ->
  fst (create_table d w) = Return tt
  /\ table (snd (create_table d w)) = Some (rows_of w)
  /\ fst (create_table d' (snd (create_table d w))) = Return tt
  /\ table (snd (create_table d' (snd (create_table d w)))) = table (snd (create_table d w)).
Proof.
  intros Hd Hd' Hu.
  destruct (create_table_creates d w Hd Hu) as (Hr & Ht & Hu1 & _).
  destruct (create_table_creates d' _ Hd' Hu1) as (Hr' & Ht' & _).
  repeat split; try assumption.
  rewrite Ht'. unfold rows_of. now rewrite Ht.
Qed.

Lemma create_table_idempotent_witness :
  fst (create_table steady two_bookings) = Return tt
  /\ table (snd (create_table steady two_bookings)) = Some (rows_of two_bookings)
  /\ fst (create_table steady (snd (create_table steady two_bookings))) = Return tt
  /\ table (snd (create_table steady (snd (create_table steady two_bookings))))
     = table (snd (create_table steady two_bookings)).
Proof.
  apply (create_table_idempotent steady steady two_bookings).
  - repeat split; reflexivity.
  - repeat split; reflexivity.
  - reflexivity.
Defined.

(** *** Store failures seen by the handlers *)

(** X5: when the store cannot be reached, POST /book (with its nine keys
    present) and GET /bookings answer 500 with the fixed body
    [Database connection failed]; the only driver call made is the attempt
    to connect, and the table is untouched. *)
Theorem unreachable_store_gives_500
    (d : Driver) (items : list (string * pyval)) (w : World) (msg : string) :
  connect_raises d = Some (MySQLError msg) ->
  (Forall (present items) required_fields ->
   fst (add_booking d (PDict items) w) = Return connection_failed
   /\ calls (snd (add_booking d (PDict items) w)) = CallConnect :: calls w
   /\ table (snd (add_booking d (PDict items) w)) = table w)
  /\ fst (get_bookings d w) = Return connection_failed
  /\ calls (snd (get_bookings d w)) = CallConnect :: calls w
  /\ table (snd (get_bookings d w)) = table w.
Proof.
  intros Hc. split; [intros Hall|].
  - unfold add_booking, call, add_booking_body, bind, print, on_world, lift.
    cbn [world conn cursor]. rewrite (first_missing_none _ _ Hall).
    repeat split; unfold_handlers; cbn; rewrite Hc; cbn; reflexivity.
  - repeat split; unfold_handlers; cbn; rewrite Hc; cbn; reflexivity.
Qed.

Lemma unreachable_store_gives_500_witness :
  (Forall (present (booking_payload (PInt 2) (seat_list ["A1"]))) required_fields ->
   fst (add_booking (unreachable "down") (PDict (booking_payload (PInt 2) (seat_list ["A1"])))
          empty_store) = Return connection_failed
   /\ calls (snd (add_booking (unreachable "down")
                    (PDict (booking_payload (PInt 2) (seat_list ["A1"]))) empty_store))
      = CallConnect :: calls empty_store
   /\ table (snd (add_booking (unreachable "down")
                    (PDict (booking_payload (PInt 2) (seat_list ["A1"]))) empty_store))
      = table empty_store)
  /\ fst (get_bookings (unreachable "down") empty_store) = Return connection_failed
  /\ calls (snd (get_bookings (unreachable "down") empty_store))
     = CallConnect :: calls empty_store
  /\ table (snd (get_bookings (unreachable "down") empty_store)) = table empty_store.
Proof.
  apply (unreachable_store_gives_500 (unreachable "down")
           (booking_payload (PInt 2) (seat_list ["A1"])) empty_store "down").
  reflexivity.
Defined.

(** X6: when the connection is made and the store then refuses the INSERT
    with a driver error (at the cursor, at the statement or at the commit),
    POST /book prints the error and answers 500 with
    [Database error: <driver message>]; nothing is stored, also when it is
    the commit that failed, and cursor and connection are closed. *)
Theorem rejected_insert_gives_500
    (d : Driver) (w : World) (rows : list Booking) (items : list (string * pyval))
    (values : Values) (msg : string) :
  payload_values items values ->
  connect_raises d = None ->
  insert_rejected d values msg ->
  table w = Some rows ->
  uncommitted w = [] ->
  fst (add_booking d (PDict items) w) = Return (database_error msg)
  /\ stdout (snd (add_booking d (PDict items) w))
     = ("Database Error: " ++ msg) :: ("Received booking data: " ++ str (PDict items))
         :: stdout w
  /\ table (snd (add_booking d (PDict items) w)) = Some rows
  /\ uncommitted (snd (add_booking d (PDict items) w)) = []
  /\ released w (snd (add_booking d (PDict items) w)).
Proof.
  destruct values as [v1 v2 v3 v4 v5 v6 n v8 s].
  intros (H1 & H2 & H3 & H4 & H5 & H6 & (passengers & H7 & Hn) & H8 & (seats & H9) & Hs)
         Hc Hrej Ht Hu.
  cbn in H1, H2, H3, H4, H5, H6, Hn, H8, Hs. unfold released.
  destruct Hrej as [Hcur | [[Hcur Hex] | (Hcur & Hex & Hcommit)]].
  all: repeat split; unfold_handlers; cbn; break_all; try congruence; try lia.
  all: same_reads; same_raises; try congruence.
  all: try match goal with
       | H : run_statement _ _ _ = _ |- _ =>
           first [ rewrite (run_statement_raised _ _ _ _ Hex) in H
                 | rewrite (run_insert_accepted _ _ _ rows Hex) in H by (cbn; exact Ht) ]
       end; try congruence.
  all: repeat match goal with
              | H : inl _ = inl _ |- _ => injection H as H; try subst
              end.
  all: same_reads; cbn; try reflexivity; try congruence; try lia.
Qed.

Lemma rejected_insert_gives_500_witness :
  fst (add_booking
         (mkDriver None None (fun _ => None) (Some (MySQLError "deadlock")) None (inr true)
            (MySQLError "no table") (fun _ _ => true))
         (PDict (booking_payload (PInt 2) (seat_list ["A1"; "A2"]))) two_bookings)
  = Return (database_error "deadlock")
  /\ stdout (snd (add_booking
                    (mkDriver None None (fun _ => None) (Some (MySQLError "deadlock")) None
                       (inr true) (MySQLError "no table") (fun _ _ => true))
                    (PDict (booking_payload (PInt 2) (seat_list ["A1"; "A2"]))) two_bookings))
     = ("Database Error: " ++ "deadlock")
         :: ("Received booking data: "
               ++ str (PDict (booking_payload (PInt 2) (seat_list ["A1"; "A2"]))))
         :: stdout two_bookings
  /\ table (snd (add_booking
                   (mkDriver None None (fun _ => None) (Some (MySQLError "deadlock")) None
                      (inr true) (MySQLError "no table") (fun _ _ => true))
                   (PDict (booking_payload (PInt 2) (seat_list ["A1"; "A2"]))) two_bookings))
     = Some [stored_booking 1 0 "A1,A2"; stored_booking 2 5 "B7"]
  /\ uncommitted (snd (add_booking
                         (mkDriver None None (fun _ => None) (Some (MySQLError "deadlock"))
                            None (inr true) (MySQLError "no table") (fun _ _ => true))
                         (PDict (booking_payload (PInt 2) (seat_list ["A1"; "A2"])))
                         two_bookings)) = []
  /\ released two_bookings
       (snd (add_booking
               (mkDriver None None (fun _ => None) (Some (MySQLError "deadlock")) None
                  (inr true) (MySQLError "no table") (fun _ _ => true))
               (PDict (booking_payload (PInt 2) (seat_list ["A1"; "A2"]))) two_bookings)).
Proof.
  apply (rejected_insert_gives_500
           (mkDriver None None (fun _ => None) (Some (MySQLError "deadlock")) None (inr true)
              (MySQLError "no table") (fun _ _ => true))
           two_bookings [stored_booking 1 0 "A1,A2"; stored_booking 2 5 "B7"]
           (booking_payload (PInt 2) (seat_list ["A1"; "A2"])) (values_of example_journey)
           "deadlock").
  - repeat split; try reflexivity; eexists; split; reflexivity.
  - reflexivity.
  - right. right. repeat split; reflexivity.
  - reflexivity.
  - reflexivity.
Defined.

(** X7: when the connection is made and the store then refuses the SELECT
    with a driver error (at the cursor, at the statement or at the fetch),
    GET /bookings answers 500 with [Database error: <driver message>];
    cursor and connection are closed and the table is untouched. *)
Theorem rejected_select_gives_500 (d : Driver) (w : World) (rows : list Booking)
    (msg : string) :
  connect_raises d = None ->
  select_rejected d msg ->
  table w = Some rows ->
  fst (get_bookings d w) = Return (database_error msg)
  /\ table (snd (get_bookings d w)) = Some rows
  /\ released w (snd (get_bookings d w)).
Proof.
  intros Hc Hrej Ht. unfold released.
  destruct Hrej as [Hcur | [[Hcur Hex] | (Hcur & Hex & Hfetch)]].
  all: repeat split; unfold_handlers; cbn; break_all; try congruence; try lia.
  all: same_reads; same_raises; try congruence.
  all: try match goal with
       | H : run_statement _ _ _ = _ |- _ =>
           first [ rewrite (run_statement_raised _ _ _ _ Hex) in H
                 | unfold run_statement in H; rewrite Hex in H; cbn in H; rewrite Ht in H ]
       end; try congruence.
  all: repeat match goal with
              | H : inl _ = inl _ |- _ => injection H as H; try subst
              end.
  all: same_reads; cbn; try reflexivity; try congruence; try lia.
Qed.

Lemma rejected_select_gives_500_witness :
  fst (get_bookings
         (mkDriver None None (fun _ => None) None (Some (MySQLError "lost")) (inr true)
            (MySQLError "no table") (fun _ _ => true)) two_bookings)
  = Return (database_error "lost")
  /\ table (snd (get_bookings
                   (mkDriver None None (fun _ => None) None (Some (MySQLError "lost"))
                      (inr true) (MySQLError "no table") (fun _ _ => true)) two_bookings))
     = Some [stored_booking 1 0 "A1,A2"; stored_booking 2 5 "B7"]
  /\ released two_bookings
       (snd (get_bookings
               (mkDriver None None (fun _ => None) None (Some (MySQLError "lost")) (inr true)
                  (MySQLError "no table") (fun _ _ => true)) two_bookings)).
Proof.
  apply (rejected_select_gives_500
           (mkDriver None None (fun _ => None) None (Some (MySQLError "lost")) (inr true)
              (MySQLError "no table") (fun _ _ => true))
           two_bookings [stored_booking 1 0 "A1,A2"; stored_booking 2 5 "B7"] "lost").
  - reflexivity.
  - right. right. repeat split; reflexivity.
  - reflexivity.
Defined.

(** X8: when [create_table] did not leave a table behind, the failure shows
    at the first requests: against a store that is reachable but has no
    [bookings] table, a valid POST /book and GET /bookings both answer 500
    with the driver's message for the missing table, and no table appears. *)
Theorem missing_table_gives_500
    (d : Driver) (w : World) (items : list (string * pyval)) (values : Values)
    (msg : string) :
  table w = None ->
  no_such_table d = MySQLError msg ->
  connect_raises d = None ->
  cursor_raises d = None ->
  (payload_values items values ->
   execute_raises d (InsertBooking values) = None ->
   fst (add_booking d (PDict items) w) = Return (database_error msg)
   /\ table (snd (add_booking d (PDict items) w)) = None)
  /\ (execute_raises d SelectOrderByCreatedAtDesc = None ->
      fst (get_bookings d w) = Return (database_error msg)
      /\ table (snd (get_bookings d w)) = None).
Proof.
  intros Ht Hmsg Hc Hcur. split.
  - destruct values as [v1 v2 v3 v4 v5 v6 n v8 s].
    intros (H1 & H2 & H3 & H4 & H5 & H6 & (passengers & H7 & Hn) & H8 & (seats & H9) & Hs)
           Hex.
    cbn in H1, H2, H3, H4, H5, H6, Hn, H8, Hs.
    repeat split; unfold_handlers; cbn; break_all; try congruence.
    all: same_reads; same_raises; try congruence.
    all: try match goal with
         | H : run_statement _ _ _ = _ |- _ =>
             unfold run_statement in H; rewrite Hex in H; cbn in H; rewrite Ht, Hmsg in H
         end; try congruence.
    all: repeat match goal with
                | H : inl _ = inl _ |- _ => injection H as H; try subst
                end.
    all: cbn; try reflexivity; try congruence.
  - intros Hex.
    repeat split; unfold_handlers; cbn; break_all; try congruence.
    all: same_reads; same_raises; try congruence.
    all: try match goal with
         | H : run_statement _ _ _ = _ |- _ =>
             unfold run_statement in H; rewrite Hex in H; cbn in H; rewrite Ht, Hmsg in H
         end; try congruence.
    all: repeat match goal with
                | H : inl _ = inl _ |- _ => injection H as H; try subst
                end.
    all: cbn; try reflexivity; try congruence.
Qed.

Lemma missing_table_gives_500_witness :
  (payload_values (booking_payload (PInt 2) (seat_list ["A1"; "A2"]))
     (values_of example_journey) ->
   execute_raises steady (InsertBooking (values_of example_journey)) = None ->
   fst (add_booking steady (PDict (booking_payload (PInt 2) (seat_list ["A1"; "A2"])))
          (set_table None empty_store))
   = Return (database_error "1146 (42S02): Table bookings does not exist")
   /\ table (snd (add_booking steady
                    (PDict (booking_payload (PInt 2) (seat_list ["A1"; "A2"])))
                    (set_table None empty_store))) = None)
  /\ (execute_raises steady SelectOrderByCreatedAtDesc = None ->
      fst (get_bookings steady (set_table None empty_store))
      = Return (database_error "1146 (42S02): Table bookings does not exist")
      /\ table (snd (get_bookings steady (set_table None empty_store))) = None).
Proof.
  apply (missing_table_gives_500 steady (set_table None empty_store)
           (booking_payload (PInt 2) (seat_list ["A1"; "A2"])) (values_of example_journey)
           "1146 (42S02): Table bookings does not exist"); reflexivity.
Defined.

(** *** GET /health *)

(** X9: [health_check] never raises and answers in one of three ways: 200
    healthy when the connection is made and alive; 500 disconnected when the
    driver refuses the connection or says it is not alive; 500 with the
    message of the exception when [connect] or [is_connected] raises
    anything else.  Its only driver calls are the attempt to connect and,
    on a connection, [is_connected] and [close]: it opens no cursor and
    sends no statement, and it leaves table, id counter and clock alone. *)
Theorem health_check_outcomes (d : Driver) (w : World) :
  (connect_raises d = None -> is_connected_answer d = inr true ->
   fst (health_check d w) = Return healthy)
  /\ (forall msg, connect_raises d = Some (MySQLError msg) ->
      fst (health_check d w) = Return disconnected)
  /\ (connect_raises d = None -> is_connected_answer d = inr false ->
      fst (health_check d w) = Return disconnected)
  /\ (forall msg, connect_raises d = Some (OtherError msg) ->
      fst (health_check d w) = Return (unhealthy msg))
  /\ (forall e, connect_raises d = None -> is_connected_answer d = inl e ->
      fst (health_check d w) = Return (unhealthy (str_of_driver_exn e)))
  /\ (exists r, fst (health_check d w) = Return r
                /\ (r = healthy \/ r = disconnected \/ exists msg, r = unhealthy msg))
  /\ (calls (snd (health_check d w)) = CallConnect :: calls w
      \/ calls (snd (health_check d w))
         = CallConnClose :: CallIsConnected :: CallConnect :: calls w)
  /\ table (snd (health_check d w)) = table w
  /\ auto_increment (snd (health_check d w)) = auto_increment w
  /\ now (snd (health_check d w)) = now w
  /\ released w (snd (health_check d w)).
Proof.
  unfold released.
  repeat match goal with |- _ /\ _ => split end.
  all: try (intros; unfold_handlers; cbn; break_all; try congruence; try lia;
            same_reads; same_raises; same_errors; try reflexivity; try congruence; fail).
  - unfold_handlers; cbn; break_all; eexists; (split; [reflexivity|]).
    all: first [ left; reflexivity
               | right; left; reflexivity
               | right; right; eexists; reflexivity ].
  - unfold_handlers; cbn; break_all; auto.
Qed.

Lemma health_check_outcomes_witness :
  fst (health_check steady empty_store) = Return healthy
  /\ fst (health_check (unreachable "down") empty_store) = Return disconnected.
Proof.
  split.
  - apply (proj1 (health_check_outcomes steady empty_store)); reflexivity.
  - apply (proj1 (proj2 (health_check_outcomes (unreachable "down") empty_store)) "down").
    reflexivity.
Defined.

(** *** What the handlers never do *)

(** X10: no handler lets a driver error ([mysql.connector.Error]) escape:
    [add_booking], [get_bookings] and [create_table] turn it into a response
    or a printed line, and [health_check] never raises at all.  What can
    escape is an interpreter error or another exception of the driver. *)
Theorem driver_errors_never_escape (d : Driver) (data : pyval) (w : World) (msg : string) :
  fst (add_booking d data w) <> Raise (FromDriver (MySQLError msg))
  /\ fst (get_bookings d w) <> Raise (FromDriver (MySQLError msg))
  /\ fst (create_table d w) <> Raise (FromDriver (MySQLError msg))
  /\ (forall e, fst (health_check d w) <> Raise e).
Proof.
  split; [|split; [|split; [|intros e]]].
  all: unfold_handlers; cbn; break_all; try discriminate.
  all: intros H; injection H as H; subst.
  all: try match goal with
       | Hc : contains _ _ = inl (FromDriver _) |- _ =>
           destruct data; cbn in Hc; discriminate Hc
       | Hi : int _ = inl (FromDriver _) |- _ =>
           destruct (int_raises _ _ Hi) as [Hi' | [Hi' | Hi']]; discriminate
       | Hs : seats_str _ = inl (FromDriver _) |- _ =>
           unfold seats_str in Hs; revert Hs; break_all; intros Hs; try discriminate Hs
       end.
Qed.

(** X11: the status of a response is 201, 400 or 500 for POST /book, and
    200 or 500 for GET /bookings and GET /health, whatever the payload and
    the store do. *)
Theorem response_statuses (d : Driver) (data : pyval) (w : World) :
  (forall r, fst (add_booking d data w) = Return r ->
     status r = 201 \/ status r = 400 \/ status r = 500)
  /\ (forall r, fst (get_bookings d w) = Return r -> status r = 200 \/ status r = 500)
  /\ (forall r, fst (health_check d w) = Return r -> status r = 200 \/ status r = 500).
Proof.
  repeat split; intros r; unfold_handlers; cbn; break_all.
  all: intros H; inversion H; subst; cbn; auto.
Qed.

(** Unless it answers 201, [add_booking] leaves the table as it was. *)
Lemma add_booking_refused_table (d : Driver) (data : pyval) (w : World) :
  (forall r, fst (add_booking d data w) = Return r -> status r <> 201) ->
  table (snd (add_booking d data w)) = table w.
Proof.
  unfold_handlers. cbn. break_all.
  all: intros Hno; invert_statements; cbn; try reflexivity.
  all: exfalso; eapply Hno; reflexivity.
Qed.

(** X12: a booking is stored exactly when POST /book answers 201.  With no
    transaction open before the request: if the answer is 201, the table
    has gained one row at its end, with the id of the response and the
    current time, and the earlier rows are as they were; on any other
    answer, and when the handler raises, the table is as before.  No
    transaction is left open either way. *)
Theorem stored_iff_201 (d : Driver) (data : pyval) (w : World) :
  uncommitted w = [] ->
  (forall r, fst (add_booking d data w) = Return r -> status r = 201 ->
     exists rows b,
       table w = Some rows
       /\ table (snd (add_booking d data w)) = Some (rows ++ [b])%list
       /\ id b = auto_increment w
       /\ created_at b = now w
       /\ r = booking_added (id b) data)
  /\ ((forall r, fst (add_booking d data w) = Return r -> status r <> 201) ->
      table (snd (add_booking d data w)) = table w)
  /\ uncommitted (snd (add_booking d data w)) = [].
Proof.
  intros Hu. split; [|split].
  - intros r. unfold_handlers. cbn. break_all.
    all: intros H; inversion H; subst; cbn; intros Hst; try discriminate Hst.
    all: invert_statements.
    all: unfold run_commit; cbn.
    all: match goal with Ht : table _ = Some _ |- _ => rewrite Ht end; cbn.
    all: rewrite Hu; cbn.
    all: eexists; eexists; split; [reflexivity|]; split; [reflexivity|]; cbn.
    all: repeat split.
  - apply add_booking_refused_table.
  - now apply add_booking_uncommitted.
Qed.

Lemma stored_iff_201_witness :
  (forall r,
     fst (add_booking steady (PDict (booking_payload (PInt 2) (seat_list ["A1"])))
            empty_store) = Return r ->
     status r = 201 ->
     exists rows b,
       table empty_store = Some rows
       /\ table (snd (add_booking steady
                        (PDict (booking_payload (PInt 2) (seat_list ["A1"]))) empty_store))
          = Some (rows ++ [b])%list
       /\ id b = auto_increment empty_store
       /\ created_at b = now empty_store
       /\ r = booking_added (id b) (PDict (booking_payload (PInt 2) (seat_list ["A1"]))))
  /\ ((forall r,
         fst (add_booking steady (PDict (booking_payload (PInt 2) (seat_list ["A1"])))
                empty_store) = Return r ->
         status r <> 201) ->
      table (snd (add_booking steady (PDict (booking_payload (PInt 2) (seat_list ["A1"])))
                    empty_store)) = table empty_store)
  /\ uncommitted (snd (add_booking steady
                         (PDict (booking_payload (PInt 2) (seat_list ["A1"]))) empty_store))
     = [].
Proof.
  apply (stored_iff_201 steady (PDict (booking_payload (PInt 2) (seat_list ["A1"])))
           empty_store).
  reflexivity.
Defined.

(** X13: GET /bookings only reads: whatever the store answers, the table,
    the id counter and the clock are as before, and a store with no open
    transaction is left with none. *)
Theorem get_bookings_only_reads (d : Driver) (w : World) :
  table (snd (get_bookings d w)) = table w
  /\ auto_increment (snd (get_bookings d w)) = auto_increment w
  /\ now (snd (get_bookings d w)) = now w
  /\ (uncommitted w = [] -> uncommitted (snd (get_bookings d w)) = []).
Proof.
  repeat split; [| | |intros Hu]; unfold_handlers; cbn; break_all.
  all: invert_statements; try reflexivity; try assumption.
Qed.

(** X14: only a JSON object can be booked.  For a payload that is not an
    object, POST /book never answers 201 and never changes the table; for
    null, a boolean or a number the key test itself raises a TypeError
    before any driver call. *)
Theorem only_objects_are_booked (d : Driver) (data : pyval) (w : World) :
  not_an_object data ->
  (forall r, fst (add_booking d data w) = Return r -> status r = 400 \/ status r = 500)
  /\ table (snd (add_booking d data w)) = table w
  /\ (scalar data ->
      fst (add_booking d data w) = Raise TypeError
      /\ calls (snd (add_booking d data w)) = calls w).
Proof.
  intros Hobj. split; [|split].
  - intros r. destruct data; try contradiction.
    all: unfold_handlers; cbn; break_all; intros H; inversion H; subst; cbn; auto.
  - destruct data; try contradiction.
    all: unfold_handlers; cbn; break_all; reflexivity.
  - intros Hs. destruct data; try contradiction.
    all: split; unfold_handlers; cbn; reflexivity.
Qed.

Lemma only_objects_are_booked_witness :
  (forall r, fst (add_booking steady PNone empty_store) = Return r ->
     status r = 400 \/ status r = 500)
  /\ table (snd (add_booking steady PNone empty_store)) = table empty_store
  /\ (scalar PNone ->
      fst (add_booking steady PNone empty_store) = Raise TypeError
      /\ calls (snd (add_booking steady PNone empty_store)) = calls empty_store).
Proof.
  apply (only_objects_are_booked steady PNone empty_store). exact I.
Defined.

(** *** Invariants of the stored rows *)

Lemma add_booking_ids (d : Driver) (data : pyval) (w : World) :
  (table (snd (add_booking d data w)) = table w
   /\ auto_increment w <= auto_increment (snd (add_booking d data w)))
  \/ exists rows b,
       table w = Some rows
       /\ id b = auto_increment w
       /\ table (snd (add_booking d data w)) = Some (rows ++ uncommitted w ++ [b])%list
       /\ auto_increment (snd (add_booking d data w)) = auto_increment w + 1.
Proof.
  unfold_handlers. cbn. break_all. all: invert_statements.
  all: try (left; cbn; split; [reflexivity | lia]).
  right. unfold run_commit. cbn.
  match goal with H : table w = Some _ |- _ => rewrite H end. cbn.
  eexists. eexists. split; [reflexivity|]. split; [|split; reflexivity]. reflexivity.
Qed.

Lemma nodup_ids_snoc (rows : list Booking) (b : Booking) :
  NoDup (map id rows) ->
  Forall (fun r => id r < id b) rows ->
  NoDup (map id (rows ++ [b])).
Proof.
  induction rows as [|r rows IH]; simpl; intros Hnd Hlt.
  - repeat constructor. intros [].
  - apply NoDup_cons_iff in Hnd as [Hr Hnd].
    apply Forall_cons_iff in Hlt as [Hrb Hlt].
    constructor; [|now apply IH].
    rewrite map_app, in_app_iff. simpl. intros [H | [H | []]]; [contradiction | lia].
Qed.

(** X15: booking ids stay unique.  If the ids of the stored rows are
    distinct and below the id counter, and no transaction is open, then
    after any POST /book (accepted, refused or failed) they still are, and
    the counter has not gone back: the id of a new row is one no earlier
    row has. *)
Theorem booking_ids_stay_unique (d : Driver) (data : pyval) (w : World) :
  ids_fresh w ->
  uncommitted w = [] ->
  ids_fresh (snd (add_booking d data w))
  /\ auto_increment w <= auto_increment (snd (add_booking d data w)).
Proof.
  intros Hfresh Hu.
  destruct (add_booking_ids d data w) as [[Ht Hinc] | (rows & b & Ht & Hb & Hgrown & Hinc)].
  - split; [|assumption]. intros rows Hrows. rewrite Ht in Hrows.
    destruct (Hfresh rows Hrows) as [Hnd Hlt]. split; [assumption|].
    eapply Forall_impl; [|exact Hlt]. cbv beta. intros r Hr. lia.
  - split; [|lia]. intros rows' Hrows. rewrite Hgrown, Hu in Hrows.
    injection Hrows as <-. simpl. destruct (Hfresh rows Ht) as [Hnd Hlt]. split.
    + apply nodup_ids_snoc; [assumption|]. now rewrite Hb.
    + rewrite Hinc. apply Forall_app. split.
      * eapply Forall_impl; [|exact Hlt]. cbv beta. intros r Hr. lia.
      * repeat constructor. lia.
Qed.

Lemma booking_ids_stay_unique_witness :
  ids_fresh (snd (add_booking steady (PDict (booking_payload (PInt 2) (seat_list ["A1"])))
                    two_bookings))
  /\ auto_increment two_bookings
     <= auto_increment (snd (add_booking steady
                               (PDict (booking_payload (PInt 2) (seat_list ["A1"])))
                               two_bookings)).
Proof.
  apply (booking_ids_stay_unique steady
           (PDict (booking_payload (PInt 2) (seat_list ["A1"]))) two_bookings).
  - intros rows [= <-]. split.
    + repeat constructor; simpl; intuition discriminate.
    + repeat constructor; simpl; lia.
  - reflexivity.
Defined.

(** X16: the stored rows stay in the order of their insertion.  If the
    rows are stamped in non-decreasing order, none after the current time,
    and no transaction is open, this is still so after any POST /book, GET
    /bookings, GET /health, and after the clock has moved on. *)
Theorem store_stays_settled (d : Driver) (data : pyval) (dt : Z) (w : World) :
  settled w ->
  settled (snd (add_booking d data w))
  /\ settled (snd (get_bookings d w))
  /\ settled (snd (health_check d w))
  /\ settled (tick dt w).
Proof.
  intros Hs. split; [|split; [|split]].
  - now apply settled_add_booking.
  - now apply settled_get_bookings.
  - now apply settled_health_check.
  - now apply settled_tick.
Qed.

Lemma store_stays_settled_witness :
  settled (snd (add_booking steady (PDict (booking_payload (PInt 2) (seat_list ["A1"])))
                  two_bookings))
  /\ settled (snd (get_bookings steady two_bookings))
  /\ settled (snd (health_check steady two_bookings))
  /\ settled (tick 3 two_bookings).
Proof.
  apply (store_stays_settled steady (PDict (booking_payload (PInt 2) (seat_list ["A1"]))) 3
           two_bookings).
  split; [reflexivity|]. intros rows [= <-].
  split; repeat constructor; cbn; lia.
Defined.

(** *** The seat text *)

Lemma split_length (s : string) : length (split "," s) = S (commas s).
Proof.
  induction s as [|c s IH]; simpl; [reflexivity|].
  destruct (Ascii.eqb c ","); simpl; [now rewrite IH|].
  destruct (split "," s); simpl in *; congruence.
Qed.

Lemma split_comma_free_pieces (s : string) : Forall comma_free (split "," s).
Proof.
  unfold comma_free. induction s as [|c s IH]; simpl; [now repeat constructor|].
  destruct (Ascii.eqb c ",") eqn:Hc; [now constructor|].
  destruct (split "," s) as [|piece rest].
  - repeat constructor. simpl. now rewrite Hc.
  - apply Forall_cons_iff in IH as [Hp Hr]. constructor; [|assumption].
    simpl. now rewrite Hc, Hp.
Qed.

Lemma join_split (s : string) : join "," (split "," s) = s.
Proof.
  unfold join. induction s as [|c s IH]; simpl; [reflexivity|].
  pose proof (split_length s) as Hlen.
  destruct (Ascii.eqb_spec c ",") as [-> | Hc].
  - destruct (split "," s) as [|piece rest]; [discriminate Hlen|].
    change (String.concat "," ("" :: piece :: rest))
      with (String "," (String.concat "," (piece :: rest))).
    now rewrite IH.
  - destruct (split "," s) as [|piece rest]; [discriminate Hlen|].
    destruct rest as [|piece' rest]; simpl in *; now rewrite <- IH.
Qed.

Lemma commas_app (s t : string) : commas (s ++ t) = (commas s + commas t)%nat.
Proof. induction s as [|c s IH]; simpl; [reflexivity | rewrite IH; lia]. Qed.

Lemma commas_comma (t : string) : commas (String "," t) = S (commas t).
Proof. reflexivity. Qed.

Lemma commas_join (s : string) (seats : list string) :
  commas (join "," (s :: seats))
  = (length seats + commas s + list_sum (map commas seats))%nat.
Proof.
  unfold join. revert s. induction seats as [|s' seats IH]; intros s.
  - simpl. lia.
  - change (String.concat "," (s :: s' :: seats))
      with (s ++ String "," (String.concat "," (s' :: seats))).
    rewrite commas_app, commas_comma, IH. simpl. lia.
Qed.

Lemma has_char_commas (s : string) : has_char "," s = true -> (0 < commas s)%nat.
Proof.
  induction s as [|c s IH]; simpl; [discriminate|].
  destruct (Ascii.eqb c ","); simpl; [lia | exact IH].
Qed.

Lemma some_comma_counts (seats : list string) :
  Exists (fun s => has_char "," s = true) seats ->
  (0 < list_sum (map commas seats))%nat.
Proof.
  induction 1 as [s seats Hs | s seats _ IH]; simpl.
  - apply has_char_commas in Hs. lia.
  - lia.
Qed.

Lemma commas_empty (s : string) : (0 < commas s)%nat -> s <> "".
Proof. intros H ->. simpl in H. lia. Qed.

(** X17: the plain round-trip law.  For every non-empty sequence of
    comma-free strings, splitting the comma-joined text on the comma gives
    the sequence back; and for every text, joining the pieces of its split
    gives the text back, each piece being comma-free. *)
Theorem split_and_join_are_inverse (seats : list string) (text : string) :
  (seats <> [] -> Forall comma_free seats -> split "," (join "," seats) = seats)
  /\ join "," (split "," text) = text
  /\ Forall comma_free (split "," text).
Proof.
  split; [|split].
  - apply split_join.
  - apply join_split.
  - apply split_comma_free_pieces.
Qed.

Lemma split_and_join_are_inverse_witness :
  split "," (join "," ["A1"; "A2"]) = ["A1"; "A2"]
  /\ join "," (split "," "A1,,B2") = "A1,,B2".
Proof.
  split.
  - apply (proj1 (split_and_join_are_inverse ["A1"; "A2"] "")).
    + discriminate.
    + repeat constructor.
  - apply (proj1 (proj2 (split_and_join_are_inverse [] "A1,,B2"))).
Defined.

(** X18: a seat that contains a comma does not survive.  When the payload
    holds a non-empty sequence of strings one of which has a comma, the
    text [add_booking] stores is listed by [get_bookings] as a longer
    sequence (one more seat per comma), hence never as the one that was
    sent. *)
Theorem comma_in_a_seat_splits_it (data : pyval) (seats : list string) :
  getitem data "selected_seats" = inr (seat_list seats) ->
  Exists (fun s => has_char "," s = true) seats ->
  exists text,
    seats_str data = inr text
    /\ length (split_seats (Some text))
       = (length seats + list_sum (map commas seats))%nat
    /\ (length seats < length (split_seats (Some text)))%nat
    /\ split_seats (Some text) <> seats.
Proof.
  intros Hget Hex. exists (join "," seats).
  pose proof (some_comma_counts seats Hex) as Hsum.
  destruct seats as [|s seats]; [inversion Hex|].
  assert (Hlen : length (split_seats (Some (join "," (s :: seats))))
                 = (length (s :: seats) + list_sum (map commas (s :: seats)))%nat).
  { rewrite split_seats_nonempty.
    - rewrite split_length, commas_join. simpl. lia.
    - apply commas_empty. rewrite commas_join. simpl in Hsum. lia. }
  split; [now apply seats_str_seat_list|].
  split; [exact Hlen|]. split; [lia|].
  intros Heq. rewrite Heq in Hlen. lia.
Qed.

Lemma comma_in_a_seat_splits_it_witness :
  exists text,
    seats_str (PDict [("selected_seats", seat_list ["A1,A2"; "B7"])]) = inr text
    /\ length (split_seats (Some text))
       = (length ["A1,A2"; "B7"] + list_sum (map commas ["A1,A2"; "B7"]))%nat
    /\ (length ["A1,A2"; "B7"] < length (split_seats (Some text)))%nat
    /\ split_seats (Some text) <> ["A1,A2"; "B7"].
Proof.
  apply (comma_in_a_seat_splits_it (PDict [("selected_seats", seat_list ["A1,A2"; "B7"])])
           ["A1,A2"; "B7"]).
  - reflexivity.
  - apply Exists_cons_hd. reflexivity.
Defined.

(** What a 200 listing is made of, whatever the driver. *)
Lemma get_bookings_listing (d : Driver) (w : World) (listing : list (Row (list string))) :
  fst (get_bookings d w) = Return (mkResponse (BookingsJson listing) 200) ->
  exists rows,
    table w = Some rows
    /\ listing = map with_seat_list (order_by_created_at_desc (tie d) rows).
Proof.
  unfold_handlers. cbn. break_all. all: intros H; inversion H; subst.
  invert_statements. cbn. eexists. split; [eassumption | reflexivity].
Qed.

(** X19: a listing shows every stored row once and loses nothing of its
    seat text.  When GET /bookings answers 200, the listing has as many rows
    as the table, and each listed row comes from a stored row with the same
    id whose seat text is the comma-join of the listed seats (NULL and the
    empty text being listed as no seats); no listed seat contains a comma. *)
Theorem listing_keeps_the_seat_text
    (d : Driver) (w : World) (listing : list (Row (list string))) :
  fst (get_bookings d w) = Return (mkResponse (BookingsJson listing) 200) ->
  exists rows,
    table w = Some rows
    /\ Permutation (map with_seat_list rows) listing
    /\ length listing = length rows
    /\ forall r, In r listing ->
         Forall comma_free (selected_seats r)
         /\ exists b, In b rows /\ id r = id b
                      /\ join "," (selected_seats r) = seat_text b.
Proof.
  intros H. destruct (get_bookings_listing d w listing H) as (rows & Ht & ->).
  exists rows. split; [assumption|].
  assert (Hperm : Permutation (map with_seat_list rows)
                    (map with_seat_list (order_by_created_at_desc (tie d) rows))).
  { apply Permutation_map, order_by_perm. }
  split; [assumption|]. split.
  - rewrite <- (Permutation_length Hperm). now rewrite length_map.
  - intros r Hr.
    apply (Permutation_in _ (Permutation_sym Hperm)) in Hr.
    apply in_map_iff in Hr as (b & <- & Hb).
    unfold with_seat_list, seat_text. cbn [selected_seats id]. split.
    + unfold split_seats. destruct (selected_seats b) as [s|]; [|constructor].
      destruct (negb (s =? "")%string); [apply split_comma_free_pieces | constructor].
    + exists b. split; [assumption|]. split; [reflexivity|].
      unfold split_seats. destruct (selected_seats b) as [s|]; [|reflexivity].
      destruct (String.eqb_spec s ""); simpl; [now subst | apply join_split].
Qed.

Lemma listing_keeps_the_seat_text_witness :
  exists rows,
    table two_bookings = Some rows
    /\ Permutation (map with_seat_list rows)
         [with_seat_list (stored_booking 2 5 "B7");
          with_seat_list (stored_booking 1 0 "A1,A2")]
    /\ length [with_seat_list (stored_booking 2 5 "B7");
               with_seat_list (stored_booking 1 0 "A1,A2")] = length rows
    /\ forall r,
         In r [with_seat_list (stored_booking 2 5 "B7");
               with_seat_list (stored_booking 1 0 "A1,A2")] ->
         Forall comma_free (selected_seats r)
         /\ exists b, In b rows /\ id r = id b
                      /\ join "," (selected_seats r) = seat_text b.
Proof.
  apply (listing_keeps_the_seat_text steady two_bookings).
  vm_compute. reflexivity.
Defined.

(** *** Seats that are not a list of strings *)

Lemma map_str_chars (s : string) : map str (chars s) = letters s.
Proof. induction s as [|c s IH]; simpl; [reflexivity | now rewrite IH]. Qed.

Lemma letters_comma_free (s : string) : comma_free s -> Forall comma_free (letters s).
Proof.
  unfold comma_free. induction s as [|c s IH]; simpl; intros H; [constructor|].
  apply orb_false_iff in H as [Hc Hs]. constructor; [|now apply IH].
  simpl. now rewrite Hc.
Qed.

Lemma letters_length (s : string) : length (letters s) = String.length s.
Proof. induction s as [|c s IH]; simpl; [reflexivity | now rewrite IH]. Qed.

(** X20: seats sent as one string are taken apart.  When [selected_seats]
    is a non-empty comma-free string instead of a list, [add_booking] joins
    its characters with commas, and [get_bookings] lists one seat per
    character. *)
Theorem seats_sent_as_text_become_letters (data : pyval) (s : string) :
  getitem data "selected_seats" = inr (PStr s) ->
  s <> "" ->
  comma_free s ->
  seats_str data = inr (join "," (letters s))
  /\ split_seats (Some (join "," (letters s))) = letters s
  /\ length (letters s) = String.length s.
Proof.
  intros Hget Hne Hfree. split; [|split].
  - unfold seats_str. rewrite Hget. simpl truthy.
    destruct (String.eqb_spec s ""); [contradiction|]. simpl.
    now rewrite map_str_chars.
  - apply split_seats_join; [now apply letters_comma_free|].
    destruct s as [|c [|c' s]]; simpl; [contradiction | discriminate | discriminate].
  - apply letters_length.
Qed.

Lemma seats_sent_as_text_become_letters_witness :
  seats_str (PDict [("selected_seats", PStr "A1")]) = inr (join "," (letters "A1"))
  /\ split_seats (Some (join "," (letters "A1"))) = letters "A1"
  /\ length (letters "A1") = String.length "A1".
Proof.
  apply (seats_sent_as_text_become_letters (PDict [("selected_seats", PStr "A1")]) "A1").
  - reflexivity.
  - discriminate.
  - reflexivity.
Defined.

(** X21: a booking without seats.  When [selected_seats] is null, false,
    zero, the empty string, the empty list or the empty object, and the
    rest of the payload can be stored (store reachable and accepting), POST
    /book answers 201, the row is stored with the empty seat text, and the
    GET /bookings that follows lists it with no seats. *)
Theorem booking_without_seats_is_listed (d d' : Driver) (w : World) (rows : list Booking)
    (items : list (string * pyval)) (values : Values) (seats : pyval) :
  payload_values items values ->
  lookup "selected_seats" items = Some seats ->
  truthy seats = false ->
  accepts d values ->
  lists_rows d' ->
  table w = Some rows ->
  uncommitted w = [] ->
  v_selected_seats values = ""
  /\ fst (add_booking d (PDict items) w)
     = Return (booking_added (auto_increment w) (PDict items))
  /\ exists listing r,
       fst (get_bookings d' (snd (add_booking d (PDict items) w)))
       = Return (mkResponse (BookingsJson listing) 200)
       /\ In r listing
       /\ id r = auto_increment w
       /\ selected_seats r = [].
Proof.
  intros Hvalues Hseats Hfalsy Hd Hd' Ht Hu.
  assert (Hempty : v_selected_seats values = "").
  { destruct Hvalues as (_ & _ & _ & _ & _ & _ & _ & _ & _ & Hs).
    unfold seats_str, getitem in Hs. rewrite Hseats, Hfalsy in Hs. now injection Hs. }
  destruct (add_booking_accepted d w rows items values Hvalues Hd Ht Hu) as [Hresp Htable].
  destruct (get_bookings_lists d' _ _ Hd' Htable) as (w2 & Hlist & _).
  split; [assumption|]. split; [assumption|].
  eexists. exists (with_seat_list (new_row values w)).
  split; [now rewrite Hlist|]. split; [|split].
  - apply in_map. eapply Permutation_in; [apply order_by_perm|].
    apply in_or_app. right. now left.
  - reflexivity.
  - unfold with_seat_list, new_row. cbn [selected_seats]. now rewrite Hempty.
Qed.

Lemma booking_without_seats_is_listed_witness :
  v_selected_seats (mkValues (PStr "A") (PStr "123") (PStr "X") (PStr "Y")
                      (PStr "2024-01-01") (PStr "10:00") 2 (PStr "AC") "") = ""
  /\ fst (add_booking steady (PDict (booking_payload (PInt 2) PNone)) empty_store)
     = Return (booking_added (auto_increment empty_store)
                 (PDict (booking_payload (PInt 2) PNone)))
  /\ exists listing r,
       fst (get_bookings steady
              (snd (add_booking steady (PDict (booking_payload (PInt 2) PNone))
                      empty_store)))
       = Return (mkResponse (BookingsJson listing) 200)
       /\ In r listing
       /\ id r = auto_increment empty_store
       /\ selected_seats r = [].
Proof.
  apply (booking_without_seats_is_listed steady steady empty_store []
           (booking_payload (PInt 2) PNone)
           (mkValues (PStr "A") (PStr "123") (PStr "X") (PStr "Y")
              (PStr "2024-01-01") (PStr "10:00") 2 (PStr "AC") "") PNone).
  - repeat split; try reflexivity; eexists; split; reflexivity.
  - reflexivity.
  - reflexivity.
  - repeat split; reflexivity.
  - repeat split; reflexivity.
  - reflexivity.
  - reflexivity.
Defined.

(** X22: seats that cannot be walked over.  When all nine keys are present,
    [selected_seats] is true or a non-zero number, and connection and cursor
    are obtained, [add_booking] raises a TypeError that no clause catches:
    no statement is sent, the table is as before, and cursor and connection
    are closed. *)
Theorem seats_that_are_not_iterable_raise
    (d : Driver) (items : list (string * pyval)) (w : World) (seats : pyval) :
  Forall (present items) required_fields ->
  lookup "selected_seats" items = Some seats ->
  truthy seats = true ->
  scalar seats ->
  connect_raises d = None ->
  cursor_raises d = None ->
  fst (add_booking d (PDict items) w) = Raise TypeError
  /\ raised_before_insert w (snd (add_booking d (PDict items) w))
  /\ table (snd (add_booking d (PDict items) w)) = table w
  /\ released w (snd (add_booking d (PDict items) w)).
Proof.
  intros Hall Hseats Htruthy Hscalar Hc Hcur.
  assert (Hraise : seats_str (PDict items) = inl TypeError).
  { unfold seats_str, getitem. rewrite Hseats, Htruthy.
    destruct seats; try contradiction; reflexivity. }
  unfold raised_before_insert, released.
  unfold add_booking, call, add_booking_body, bind, print, on_world, lift.
  cbn [world conn cursor]. rewrite (first_missing_none _ _ Hall).
  repeat split; unfold_handlers; cbn; break_all; try congruence; try lia.
  all: same_reads; same_raises; same_errors; try congruence.
Qed.

Lemma seats_that_are_not_iterable_raise_witness :
  fst (add_booking steady (PDict (booking_payload (PInt 2) (PInt 5))) empty_store)
  = Raise TypeError
  /\ raised_before_insert empty_store
       (snd (add_booking steady (PDict (booking_payload (PInt 2) (PInt 5))) empty_store))
  /\ table (snd (add_booking steady (PDict (booking_payload (PInt 2) (PInt 5)))
                   empty_store)) = table empty_store
  /\ released empty_store
       (snd (add_booking steady (PDict (booking_payload (PInt 2) (PInt 5))) empty_store)).
Proof.
  apply (seats_that_are_not_iterable_raise steady (booking_payload (PInt 2) (PInt 5))
           empty_store (PInt 5)).
  - repeat constructor; discriminate.
  - reflexivity.
  - reflexivity.
  - exact I.
  - reflexivity.
  - reflexivity.
Defined.

(** *** Requests one after the other *)

(** X23: of two bookings accepted one after the other, with the clock
    having moved in between, the later one is listed first: the table has
    gained the two rows, the second with the next id and a later timestamp,
    and the listing shows the second (its id, its columns, its seats)
    before the first. *)
Theorem later_booking_is_listed_first
    (d1 d2 d3 : Driver) (w : World) (rows : list Booking) (dt : Z)
    (items1 items2 : list (string * pyval)) (values1 values2 : Values) :
  payload_values items1 values1 ->
  payload_values items2 values2 ->
  accepts d1 values1 ->
  accepts d2 values2 ->
  lists_rows d3 ->
  table w = Some rows ->
  uncommitted w = [] ->
  0 < dt ->
  exists first second listing,
    table (snd (add_booking d2 (PDict items2)
                  (tick dt (snd (add_booking d1 (PDict items1) w)))))
    = Some (rows ++ [first; second])%list
    /\ id first = auto_increment w
    /\ id second = auto_increment w + 1
    /\ created_at first < created_at second
    /\ fst (get_bookings d3
              (snd (add_booking d2 (PDict items2)
                      (tick dt (snd (add_booking d1 (PDict items1) w))))))
       = Return (mkResponse (BookingsJson listing) 200)
    /\ exists r1 r2, shows r1 first /\ shows r2 second /\ precedes r2 r1 listing.
Proof.
  intros Hv1 Hv2 Hd1 Hd2 Hd3 Ht Hu Hdt.
  destruct (add_booking_accepted d1 w rows items1 values1 Hv1 Hd1 Ht Hu) as [_ Ht1].
  pose proof (add_booking_uncommitted d1 (PDict items1) w Hu) as Hu1.
  pose proof (add_booking_now d1 (PDict items1) w) as Hn1.
  destruct (add_booking_ids d1 (PDict items1) w)
    as [[Hsame _] | (rows' & b & Hrows' & _ & Hgrown & Hinc)].
  { rewrite Hsame, Ht in Ht1. injection Ht1 as Ht1.
    apply (f_equal (@length Booking)) in Ht1. rewrite length_app in Ht1. simpl in Ht1. lia. }
  set (w1 := snd (add_booking d1 (PDict items1) w)) in *.
  assert (Ht1' : table (tick dt w1) = Some (rows ++ [new_row values1 w])%list) by exact Ht1.
  assert (Hu1' : uncommitted (tick dt w1) = []) by exact Hu1.
  destruct (add_booking_accepted d2 (tick dt w1) _ items2 values2 Hv2 Hd2 Ht1' Hu1')
    as [_ Ht2].
  destruct (get_bookings_lists d3 _ _ Hd3 Ht2) as (w3 & Hlist & _).
  exists (new_row values1 w), (new_row values2 (tick dt w1)). eexists.
  split; [now rewrite Ht2, <- app_assoc|].
  split; [reflexivity|]. split; [cbn; lia|]. split; [cbn; lia|].
  split; [now rewrite Hlist|].
  exists (with_seat_list (new_row values1 w)),
         (with_seat_list (new_row values2 (tick dt w1))).
  split; [apply shows_with_seat_list|]. split; [apply shows_with_seat_list|].
  assert (Hperm : Permutation
                    (map with_seat_list
                       ((rows ++ [new_row values1 w]) ++ [new_row values2 (tick dt w1)]))
                    (map with_seat_list
                       (order_by_created_at_desc (tie d3)
                          ((rows ++ [new_row values1 w]) ++ [new_row values2 (tick dt w1)])))).
  { apply Permutation_map, order_by_perm. }
  apply newer_precedes.
  - apply newest_first_with_seat_list, order_by_sorted.
  - eapply Permutation_in; [exact Hperm|]. apply in_map.
    apply in_or_app. right. now left.
  - eapply Permutation_in; [exact Hperm|]. apply in_map.
    apply in_or_app. left. apply in_or_app. right. now left.
  - cbn. lia.
Qed.

Lemma later_booking_is_listed_first_witness :
  exists first second listing,
    table (snd (add_booking steady (PDict (booking_payload (PInt 2) PNone))
                  (tick 5 (snd (add_booking steady
                                  (PDict (booking_payload (PInt 2) (seat_list ["A1"; "A2"])))
                                  empty_store)))))
    = Some ([] ++ [first; second])%list
    /\ id first = auto_increment empty_store
    /\ id second = auto_increment empty_store + 1
    /\ created_at first < created_at second
    /\ fst (get_bookings steady
              (snd (add_booking steady (PDict (booking_payload (PInt 2) PNone))
                      (tick 5 (snd (add_booking steady
                                      (PDict (booking_payload (PInt 2)
                                                (seat_list ["A1"; "A2"])))
                                      empty_store))))))
       = Return (mkResponse (BookingsJson listing) 200)
    /\ exists r1 r2, shows r1 first /\ shows r2 second /\ precedes r2 r1 listing.
Proof.
  apply (later_booking_is_listed_first steady steady steady empty_store [] 5
           (booking_payload (PInt 2) (seat_list ["A1"; "A2"]))
           (booking_payload (PInt 2) PNone)
           (values_of example_journey)
           (mkValues (PStr "A") (PStr "123") (PStr "X") (PStr "Y")
              (PStr "2024-01-01") (PStr "10:00") 2 (PStr "AC") "")).
  - repeat split; try reflexivity; eexists; split; reflexivity.
  - repeat split; try reflexivity; eexists; split; reflexivity.
  - repeat split; reflexivity.
  - repeat split; reflexivity.
  - repeat split; reflexivity.
  - reflexivity.
  - reflexivity.
  - lia.
Defined.

(** The answer of [get_bookings] depends on the store through its table
    only. *)
Lemma get_bookings_reads_the_table (d : Driver) (w1 w2 : World) :
  table w1 = table w2 ->
  fst (get_bookings d w1) = fst (get_bookings d w2).
Proof.
  intros Ht. unfold_handlers. unfold run_statement. cbn. break_all.
  all: same_reads; same_errors; try congruence; try reflexivity.
Qed.

(** X24: a booking that was not answered 201 never shows.  With no
    transaction open: if POST /book answers anything but 201, or raises,
    the GET /bookings that follows answers exactly as it would have
    answered before the POST. *)
Theorem refused_booking_is_never_listed (d d' : Driver) (data : pyval) (w : World) :
  (forall r, fst (add_booking d data w) = Return r -> status r <> 201) ->
  fst (get_bookings d' (snd (add_booking d data w))) = fst (get_bookings d' w).
Proof.
  intros Hno. apply get_bookings_reads_the_table.
  now apply add_booking_refused_table.
Qed.

Lemma refused_booking_is_never_listed_witness :
  fst (get_bookings steady
         (snd (add_booking steady (PDict (booking_payload (PStr "abc") (seat_list ["A1"])))
                 two_bookings)))
  = fst (get_bookings steady two_bookings).
Proof.
  apply (refused_booking_is_never_listed steady steady
           (PDict (booking_payload (PStr "abc") (seat_list ["A1"]))) two_bookings).
  intros r H. vm_compute in H. discriminate H.
Defined.

(** *** Payloads that are arrays *)

Lemma first_missing_in_array (l : list pyval) (pre post : list string) (field : string) :
  Forall (mentions l) pre ->
  ~ mentions l field ->
  first_missing (pre ++ field :: post) (PList l) = inr (Some field).
Proof.
  unfold mentions. intros Hpre Habs.
  induction Hpre as [|f pre Hf _ IH]; simpl.
  - destruct (existsb (is_str field) l); [contradiction | reflexivity].
  - now rewrite Hf.
Qed.

(** X25: the key test on a JSON array.  [field not in data] on an array
    asks whether the name is one of its elements, so an array payload is
    answered 400 naming the first required name that is not among its
    elements (for the empty array, [name]), before any driver call. *)
Theorem array_payload_is_refused (d : Driver) (l : list pyval) (w : World)
    (pre post : list string) (field : string) :
  required_fields = (pre ++ field :: post)%list ->
  Forall (mentions l) pre ->
  ~ mentions l field ->
  fst (add_booking d (PList l) w) = Return (missing_field field)
  /\ calls (snd (add_booking d (PList l) w)) = calls w
  /\ table (snd (add_booking d (PList l) w)) = table w.
Proof.
  intros Hreq Hpre Habs.
  unfold add_booking, call, add_booking_body, bind, print, on_world, lift.
  cbn [world conn cursor]. rewrite Hreq, (first_missing_in_array _ _ _ _ Hpre Habs).
  repeat split.
Qed.

Lemma array_payload_is_refused_witness :
  fst (add_booking steady (PList []) empty_store) = Return (missing_field "name")
  /\ calls (snd (add_booking steady (PList []) empty_store)) = calls empty_store
  /\ table (snd (add_booking steady (PList []) empty_store)) = table empty_store.
Proof.
  apply (array_payload_is_refused steady [] empty_store [] (skipn 1 required_fields) "name").
  - reflexivity.
  - constructor.
  - discriminate.
Defined.
